(** * Custodia HTTP gateway: authentication gate and consumer router

    A shallow embedding of [custodia/httpd/server.py]: the server
    constructor, the request pipeline (authenticators, then the walk from
    the request path up to the root looking for a consumer), the body
    parser and the connection handler, together with the parts of the
    Python library they call ([posixpath.split], [posixpath.isabs],
    [int] on a string, a buffered [read]). *)

From Stdlib Require Import ZArith Ascii String List Lia.
From stdpp Require Import gmap strings list.

Local Open Scope Z_scope.

(** ** Python strings: the few [str] methods the server relies on *)

Module pystr.

Definition sep : ascii := "/"%char.

(** [len(p)] *)
Definition len (p : string) : nat := String.length p.

(** [p.rfind('/')], scanning left to right and remembering the last hit;
    [-1] when there is none. *)
Fixpoint rfind_from (p : string) (i last : Z) : Z :=
  match p with
  | EmptyString => last
  | String c r => rfind_from r (i + 1) (if Ascii.eqb c sep then i else last)
  end.

Definition rfind (p : string) : Z := rfind_from p 0 (-1).

(** [p[:n]] and [p[n:]] for [0 <= n]. *)
Fixpoint take (n : nat) (p : string) {struct p} : string :=
  match p, n with
  | String c r, S n' => String c (take n' r)
  | _, _ => EmptyString
  end.

Fixpoint drop (n : nat) (p : string) {struct p} : string :=
  match p, n with
  | String _ r, S n' => drop n' r
  | _, _ => p
  end.

(** ['/' * n] *)
Fixpoint repeat_sep (n : nat) : string :=
  match n with
  | O => EmptyString
  | S n' => String sep (repeat_sep n')
  end.

(** [p.rstrip('/')] *)
Fixpoint rstrip (p : string) : string :=
  match p with
  | EmptyString => EmptyString
  | String c r =>
      match rstrip r with
      | EmptyString => if Ascii.eqb c sep then EmptyString else String c EmptyString
      | r' => String c r'
      end
  end.

(** [p.startswith('/')] and [p.endswith('/')] *)
Definition startswith_sep (p : string) : bool :=
  match p with
  | String c _ => Ascii.eqb c sep
  | EmptyString => false
  end.

Fixpoint endswith_sep (p : string) : bool :=
  match p with
  | EmptyString => false
  | String c EmptyString => Ascii.eqb c sep
  | String _ r => endswith_sep r
  end.

(** ['/' not in p] *)
Fixpoint sep_free (p : string) : bool :=
  match p with
  | EmptyString => true
  | String c r => negb (Ascii.eqb c sep) && sep_free r
  end.

End pystr.

(** ** [posixpath]: [isabs] and [split] as the Python library defines them *)

Module posixpath.

(** [def isabs(s): return s.startswith('/')] *)
Definition isabs (s : string) : bool := pystr.startswith_sep s.

(** [[
    def split(p):
        i = p.rfind('/') + 1
        head, tail = p[:i], p[i:]
        if head and head != '/'*len(head):
            head = head.rstrip('/')
        return head, tail
    ]] *)
Definition split (p : string) : string * string :=
  let i := Z.to_nat (pystr.rfind p + 1) in
  let head := pystr.take i p in
  let tail := pystr.drop i p in
  let head :=
    if negb (String.eqb head "")
       && negb (String.eqb head (pystr.repeat_sep (pystr.len head)))
    then pystr.rstrip head else head in
  (head, tail).

End posixpath.

(** ** Python values, exceptions and results *)

(** The request is a Python [dict] with text keys.  Its values are untyped:
    an authenticator may store anything under any key ([VFile] stands for
    an object with a [read] method), and the test
    [request['valid_auth'] is not True] tells the boolean [True] from every
    other object (also from [1] and from non-empty strings). *)
#[warnings="-register-all"]
Inductive value : Type :=
| VNone
| VBool (b : bool)
| VInt (n : Z)
| VStr (s : string)
| VBytes (b : list Byte.byte)
| VFile (content : list Byte.byte)
| VList (l : list value)
| VDict (d : list (string * value)).

Abbreviation request := (gmap string value).

(** [class HTTPError(Exception)] and the other exceptions that can travel
    through the pipeline and the connection handler. *)
Inductive exn : Type :=
| HTTPError (code : Z) (mesg : option string)
| ValueError (msg : string)
| KeyError (key : string)
| TypeError
| AttributeError
| SocketTimeout
| PluginFault (msg : string).

(** [HTTPError.__init__(self, code=None, message=None)] *)
Definition HTTPError_new (code : option Z) (message : option string) : exn :=
  HTTPError (match code with Some c => c | None => 500 end) message.

Inductive result (A : Type) : Type :=
| Return (a : A)
| Raise (e : exn).
Arguments Return {A} a.
Arguments Raise {A} e.

(** [v is True] *)
Definition is_True (v : value) : bool :=
  match v with
  | VBool true => true
  | _ => false
  end.

(** ** Plugins and configuration *)

(** An authenticator's [handle(request)] mutates the request in place and
    returns nothing; it may raise.  A consumer's [handle(request)] returns
    the response object (possibly [None]) or raises; it too may touch the
    request. *)
Record Authenticator : Type := { auth_handle : request -> request * option exn }.
Record Consumer : Type := { con_handle : request -> request * result value }.

(** The [config] dictionary.  A key is [None] here when it is missing from
    the dictionary.  [authenticators] is kept as an association list in the
    iteration order of the dictionary, [consumers] as a finite map. *)
Record Config : Type := {
  cfg_consumers : option (gmap string Consumer);
  cfg_authenticators : option (list (string * Authenticator));
  cfg_server_string : option string
}.

(** What the pipeline did to its plugins, in order: a ghost record of the
    calls [authers[auth].handle(request)] and [con.handle(request)], the
    latter with the key under which the consumer was found and the request
    as it was handed over. *)
Inductive call : Type :=
| CallAuth (name : string)
| CallConsumer (prefix : string) (req : request).

Record pstate : Type := {
  st_request : request;
  st_calls : list call
}.

Definition start (req : request) : pstate :=
  {| st_request := req; st_calls := [] |}.

(** ** [class ForkingLocalHTTPServer] *)

Module ForkingLocalHTTPServer.

Record t : Type := {
  config : Config;
  server_string : string
}.

(** [[
    def __init__(self, server_address, handler_class, config):
        UnixStreamServer.__init__(self, server_address, handler_class)
        if 'consumers' not in config:
            raise ValueError('Configuration does not provide any consumer')
        self.config = config
        if 'server_string' in self.config:
            self.server_string = self.config['server_string']
    ]]
    [base] is the outcome of binding the socket in the base class. *)
Definition __init__ (base : result unit) (cfg : Config) : result t :=
  match base with
  | Raise e => Raise e
  | Return _ =>
      match cfg_consumers cfg with
      | None => Raise (ValueError "Configuration does not provide any consumer")
      | Some _ =>
          Return {| config := cfg;
                    server_string :=
                      match cfg_server_string cfg with
                      | Some s => s
                      | None => "Custodia/0.1"
                      end |}
      end
  end.

(** [for auth in authers: authers[auth].handle(request)]; an exception
    raised by an authenticator ends the loop and the pipeline. *)
Fixpoint run_authers (authers : list (string * Authenticator)) (st : pstate)
  : pstate * option exn :=
  match authers with
  | [] => (st, None)
  | (name, a) :: rest =>
      let '(req', r) := auth_handle a (st_request st) in
      let st' := {| st_request := req';
                    st_calls := st_calls st ++ [CallAuth name] |} in
      match r with
      | Some e => (st', Some e)
      | None => run_authers rest st'
      end
  end.

(** ['valid_auth' in request and request['valid_auth'] is True] *)
Definition valid_auth (req : request) : bool :=
  match req !! "valid_auth" with
  | Some v => is_True v
  | None => false
  end.

(** The request as [con.handle] receives it:
    [if len(trail) != 0: request['trail'] = trail]. *)
Definition attach_trail (trail : list string) (req : request) : request :=
  if negb (Nat.eqb (List.length trail) 0)
  then <["trail" := VList (VStr <$> trail)]> req
  else req.

(** [[
    while path != '':
        if path in self.config['consumers']:
            con = self.config['consumers'][path]
            if len(trail) != 0:
                request['trail'] = trail
            return con.handle(request)
        if path == '/':
            path = ''
        else:
            head, tail = os.path.split(path)
            trail.insert(0, tail)
            path = head
    raise HTTPError(404)
    ]]
    [fuel] bounds the number of times the loop condition is evaluated;
    [None] means the loop is still running when the fuel is spent. *)
Fixpoint select (fuel : nat) (consumers : option (gmap string Consumer))
    (st : pstate) (path : string) (trail : list string)
  : option (pstate * result value) :=
  match fuel with
  | O => None
  | S fuel' =>
      if String.eqb path "" then Some (st, Raise (HTTPError_new (Some 404) None))
      else
        match consumers with
        | None => Some (st, Raise (KeyError "consumers"))
        | Some registry =>
            match registry !! path with
            | Some con =>
                let req := attach_trail trail (st_request st) in
                let '(req', r) := con_handle con req in
                Some ({| st_request := req';
                         st_calls := st_calls st ++ [CallConsumer path req] |}, r)
            | None =>
                if String.eqb path "/" then select fuel' consumers st "" trail
                else
                  let '(head, tail) := posixpath.split path in
                  select fuel' consumers st head (tail :: trail)
            end
        end
  end.

(** The second half of [pipeline], from [# Select consumer] on.
    [request.get('path', '')] is a text string for every request the
    handler builds; [os.path.isabs] rejects [None], numbers and
    containers with a [TypeError] (a bytes path is outside the model). *)
Definition select_consumer (fuel : nat) (self : t) (st : pstate)
  : option (pstate * result value) :=
  match default (VStr "") (st_request st !! "path") with
  | VStr path =>
      if negb (posixpath.isabs path)
      then Some (st, Raise (HTTPError_new (Some 400) None))
      else select fuel (cfg_consumers (config self)) st path []
  | _ => Some (st, Raise TypeError)
  end.

(** [[
    def pipeline(self, request):
        authers = self.config.get('authenticators')
        if authers is None:
            raise HTTPError(403)
        for auth in authers:
            authers[auth].handle(request)
        if 'valid_auth' not in request or request['valid_auth'] is not True:
            raise HTTPError(403)
        ...
    ]] *)
Definition pipeline (fuel : nat) (self : t) (st : pstate)
  : option (pstate * result value) :=
  match cfg_authenticators (config self) with
  | None => Some (st, Raise (HTTPError_new (Some 403) None))
  | Some authers =>
      match run_authers authers st with
      | (st1, Some e) => Some (st1, Raise e)
      | (st1, None) =>
          if negb (valid_auth (st_request st1))
          then Some (st1, Raise (HTTPError_new (Some 403) None))
          else select_consumer fuel self st1
      end
  end.

End ForkingLocalHTTPServer.

(** ** [int(s)] on a text string and [read(n)] on a buffered stream *)

Module pyint.

(** The characters [int] strips from both ends of its argument. *)
Definition is_space (c : ascii) : bool :=
  let n := N_of_ascii c in
  (((9 <=? n) && (n <=? 13)) || ((28 <=? n) && (n <=? 32))
   || (n =? 133) || (n =? 160))%N.

Definition digit (c : ascii) : option Z :=
  let n := N_of_ascii c in
  if ((48 <=? n) && (n <=? 57))%N then Some (Z.of_N n - 48) else None.

Fixpoint lstrip (s : string) : string :=
  match s with
  | String c r => if is_space c then lstrip r else s
  | EmptyString => s
  end.

Fixpoint rstrip (s : string) : string :=
  match s with
  | EmptyString => EmptyString
  | String c r =>
      match rstrip r with
      | EmptyString => if is_space c then EmptyString else String c EmptyString
      | r' => String c r'
      end
  end.

(** Digits, with single underscores allowed between two digits.
    [prev] tells whether the character before was a digit. *)
Fixpoint digits (s : string) (acc : Z) (prev : bool) : option Z :=
  match s with
  | EmptyString => if prev then Some acc else None
  | String c r =>
      match digit c with
      | Some d => digits r (10 * acc + d) true
      | None =>
          if Ascii.eqb c "_"%char && prev then digits r acc false else None
      end
  end.

(** [int(s)] for a text string [s]: [None] stands for [ValueError]. *)
Definition int (s : string) : option Z :=
  match rstrip (lstrip s) with
  | String "-"%char r => Z.opp <$> digits r 0 false
  | String "+"%char r => digits r 0 false
  | r => digits r 0 false
  end.

End pyint.

Module stream.

(** The bytes the peer sends before it closes its end. *)
Definition t : Type := list Byte.byte.

(** [rfile.read(n)]: as many bytes as asked for, fewer only at end of
    stream; everything that is left when [n] is negative. *)
Definition read (n : Z) (f : t) : list Byte.byte * t :=
  if (n <? 0)%Z then (f, [])
  else (take (Z.to_nat n) f, drop (Z.to_nat n) f).

(** [rfile.readline(limit)]: up to and including the first newline, at
    most [limit] bytes. *)
Fixpoint readline (limit : Z) (f : t) : list Byte.byte * t :=
  match f with
  | [] => ([], [])
  | b :: r =>
      if (limit <=? 0)%Z then ([], f)
      else if Byte.eqb b Byte.x0a then ([b], r)
      else let '(line, rest) := readline (limit - 1) r in (b :: line, rest)
  end.

End stream.

(** ** [class LocalHTTPRequestHandler] *)

Module LocalHTTPRequestHandler.

Definition MAX_REQUEST_SIZE : Z := 10 * 1024 * 1024.

(** What the handler does to the connection, in order. *)
Inductive wevent : Type :=
| SendError (code : Z) (mesg : option string)
| SendResponse (code : value)
| SendHeader (header : string) (v : value)
| EndHeaders
| CopyFile (content : list Byte.byte)
| WriteStr (output : value)
| Flush
| LogError (msg : string).

(** [urlparse(path)], as far as the handler looks at it. *)
Record url_t : Type := {
  url_path : string;
  url_query : string;
  url_value : value
}.

Record t : Type := {
  server : ForkingLocalHTTPServer.t;
  rfile : stream.t;
  wfile : list wevent;
  sock_peercred : Z * Z * Z;
  raw_requestline : list Byte.byte;
  requestline : string;
  request_version : string;
  command : string;
  close_connection : bool;
  path : string;
  query : value;
  url : value;
  headers : gmap string string;
  body : option (list Byte.byte)
}.

Definition set_rfile (f : stream.t) (h : t) : t :=
  {| server := server h; rfile := f; wfile := wfile h;
     sock_peercred := sock_peercred h; raw_requestline := raw_requestline h;
     requestline := requestline h; request_version := request_version h;
     command := command h; close_connection := close_connection h;
     path := path h; query := query h; url := url h; headers := headers h;
     body := body h |}.

Definition emit (e : list wevent) (h : t) : t :=
  {| server := server h; rfile := rfile h; wfile := wfile h ++ e;
     sock_peercred := sock_peercred h; raw_requestline := raw_requestline h;
     requestline := requestline h; request_version := request_version h;
     command := command h; close_connection := close_connection h;
     path := path h; query := query h; url := url h; headers := headers h;
     body := body h |}.

Definition set_raw_requestline (l : list Byte.byte) (h : t) : t :=
  {| server := server h; rfile := rfile h; wfile := wfile h;
     sock_peercred := sock_peercred h; raw_requestline := l;
     requestline := requestline h; request_version := request_version h;
     command := command h; close_connection := close_connection h;
     path := path h; query := query h; url := url h; headers := headers h;
     body := body h |}.

(** [self.requestline = ''; self.request_version = ''; self.command = ''] *)
Definition clear_requestline (h : t) : t :=
  {| server := server h; rfile := rfile h; wfile := wfile h;
     sock_peercred := sock_peercred h; raw_requestline := raw_requestline h;
     requestline := ""; request_version := "";
     command := ""; close_connection := close_connection h;
     path := path h; query := query h; url := url h; headers := headers h;
     body := body h |}.

Definition set_close_connection (b : bool) (h : t) : t :=
  {| server := server h; rfile := rfile h; wfile := wfile h;
     sock_peercred := sock_peercred h; raw_requestline := raw_requestline h;
     requestline := requestline h; request_version := request_version h;
     command := command h; close_connection := b;
     path := path h; query := query h; url := url h; headers := headers h;
     body := body h |}.

Definition set_url (u : url_t) (q : value) (h : t) : t :=
  {| server := server h; rfile := rfile h; wfile := wfile h;
     sock_peercred := sock_peercred h; raw_requestline := raw_requestline h;
     requestline := requestline h; request_version := request_version h;
     command := command h; close_connection := close_connection h;
     path := url_path u; query := q; url := url_value u; headers := headers h;
     body := body h |}.

Definition set_body (b : option (list Byte.byte)) (h : t) : t :=
  {| server := server h; rfile := rfile h; wfile := wfile h;
     sock_peercred := sock_peercred h; raw_requestline := raw_requestline h;
     requestline := requestline h; request_version := request_version h;
     command := command h; close_connection := close_connection h;
     path := path h; query := query h; url := url h; headers := headers h;
     body := b |}.

(** [peer_creds]: the three integers [SO_PEERCRED] yields, as the
    dictionary [{'pid': pid, 'uid': uid, 'gid': gid}]. *)
Definition peer_creds (h : t) : value :=
  let '(pid, uid, gid) := sock_peercred h in
  VDict [("pid", VInt pid); ("uid", VInt uid); ("gid", VInt gid)].

(** [[
    def parse_body(self):
        length = int(self.headers.get('content-length', 0))
        if length > MAX_REQUEST_SIZE:
            raise HTTPError(413)
        if length == 0:
            self.body = None
        else:
            self.body = self.rfile.read(length)
    ]]
    [headers] is keyed by the lower-case header name. *)
Definition parse_body (self : t) : t * result unit :=
  match
    match headers self !! "content-length" with
    | Some s => pyint.int s
    | None => Some 0
    end
  with
  | None => (self, Raise (ValueError "invalid literal for int() with base 10"))
  | Some length =>
      if (length >? MAX_REQUEST_SIZE)%Z
      then (self, Raise (HTTPError_new (Some 413) None))
      else if (length =? 0)%Z
      then (set_body None self, Return tt)
      else
        let '(data, rest) := stream.read length (rfile self) in
        (set_body (Some data) (set_rfile rest self), Return tt)
  end.

Section handler.

(** The library functions the handler calls and this repository does not
    define: the request-line and header parser of the base class (it
    fills in [command], [path], [request_version] and [headers], and may
    answer the peer itself when it fails), [urlparse] and [parse_qs]. *)
Variable BaseHTTPRequestHandler_parse_request : t -> t * bool.
Variable urlparse : string -> url_t.
Variable parse_qs : string -> value.

(** [[
    def parse_request(self, *args, **kwargs):
        if not BaseHTTPRequestHandler.parse_request(self, *args, **kwargs):
            return False
        url = urlparse(self.path)
        self.path = url.path
        self.query = parse_qs(url.query)
        self.url = url
        return True
    ]] *)
Definition parse_request (self : t) : t * bool :=
  let '(self, ok) := BaseHTTPRequestHandler_parse_request self in
  if negb ok then (self, false)
  else
    let u := urlparse (path self) in
    (set_url u (parse_qs (url_query u)) self, true).

(** The dictionary literal of [handle_one_request]. *)
Definition build_request (self : t) : request :=
  <["body" := match body self with Some b => VBytes b | None => VNone end]>
  (<["headers" := VDict (map_to_list (VStr <$> headers self))]>
  (<["version" := VStr (request_version self)]>
  (<["url" := url self]>
  (<["query" := query self]>
  (<["path" := VStr (path self)]>
  (<["command" := VStr (command self)]>
  (<["creds" := peer_creds self]> ∅))))))).

(** [d.get(key, default)] on a dictionary value. *)
Fixpoint dict_get (d : list (string * value)) (key : string) (dflt : value) : value :=
  match d with
  | [] => dflt
  | (k, v) :: r => if String.eqb k key then v else dict_get r key dflt
  end.

(** The tail of [handle_one_request], from [self.send_response] on.  A
    response that is not a dictionary has no [get]. *)
Definition write_response (response : value) (self : t) : t * result unit :=
  match response with
  | VDict d =>
      let self := emit [SendResponse (dict_get d "code" (VInt 200))] self in
      match dict_get d "headers" (VDict []) with
      | VDict hs =>
          let self := emit ((λ hv, SendHeader hv.1 hv.2) <$> hs) self in
          let self := emit [EndHeaders] self in
          let self :=
            match dict_get d "output" VNone with
            | VFile content => emit [CopyFile content] self
            | VNone => set_close_connection true self
            | output => emit [WriteStr output] self
            end in
          (emit [Flush] self, Return tt)
      | _ => (self, Raise AttributeError)
      end
  | _ => (self, Raise AttributeError)
  end.

(** [handle_one_request], statement by statement.  The outer [try] only
    catches [socket.timeout]; the [try] around [parse_body] only
    catches [HTTPError]; every other exception leaves the method.
    ([self.server.pipeline] is a bound method and so always true: the
    first test never fires.) *)
Definition handle_one_request (fuel : nat) (self : t) : option (t * result unit) :=
  let '(line, rest) := stream.readline 65537 (rfile self) in
  let self := set_raw_requestline line (set_rfile rest self) in
  if Nat.eqb (List.length line) 0
  then Some (set_close_connection true self, Return tt)
  else if (Z.of_nat (List.length line) >? 65536)%Z
  then Some (emit [SendError 414 None; Flush] (clear_requestline self), Return tt)
  else
    let '(self, ok) := parse_request self in
    if negb ok then Some (set_close_connection true self, Return tt)
    else
      match parse_body self with
      | (self, Raise (HTTPError code mesg)) =>
          Some (emit [SendError code mesg; Flush] self, Return tt)
      | (self, Raise SocketTimeout) =>
          Some (set_close_connection true (emit [LogError "Request timed out"] self),
                Return tt)
      | (self, Raise e) => Some (self, Raise e)
      | (self, Return _) =>
          match ForkingLocalHTTPServer.pipeline fuel (server self)
                  (start (build_request self)) with
          | None => None
          | Some (_, r) =>
              let r :=
                match r with
                | Return VNone => Raise (HTTPError_new (Some 500) None)
                | _ => r
                end in
              match r with
              | Raise (HTTPError code mesg) =>
                  Some (emit [SendError code mesg; Flush] self, Return tt)
              | Raise SocketTimeout =>
                  Some (set_close_connection true
                          (emit [LogError "Request timed out"] self), Return tt)
              | Raise _ =>
                  Some (emit [LogError "Handler failed"; LogError "Traceback";
                              SendError 500 None; Flush] self, Return tt)
              | Return response => Some (write_response response self)
              end
          end
      end.

End handler.

End LocalHTTPRequestHandler.

(** ** Vocabulary of the statements *)

(** [p + "/" + s], and the path obtained from [p] by appending the
    segments [segs] one after the other. *)
Definition child (p s : string) : string := p +:+ String pystr.sep s.

Fixpoint under (p : string) (segs : list string) : string :=
  match segs with
  | [] => p
  | s :: r => under (child p s) r
  end.

(** A path segment: not empty, no separator inside. *)
Definition segment (s : string) : bool :=
  negb (String.eqb s "") && pystr.sep_free s.

(** None of the paths [p/s1], [p/s1/s2], ..., [p/s1/.../sn] is a key of
    the registry. *)
Fixpoint unregistered (reg : gmap string Consumer) (p : string)
    (segs : list string) : bool :=
  match segs with
  | [] => true
  | s :: r =>
      match reg !! child p s with
      | None => unregistered reg (child p s) r
      | Some _ => false
      end
  end.

(** The path that consists of the registered prefix [P] followed by the
    segments [segs]: below the root ["/"] the segments start right after
    the root's separator. *)
Definition below (P : string) (segs : list string) : string :=
  match segs with
  | [] => P
  | _ => under (if String.eqb P "/" then "" else P) segs
  end.

(** An authenticator that returns normally on every request. *)
Definition returns_normally (a : Authenticator) : Prop :=
  ∀ req, (auth_handle a req).2 = None.

(** The state in which the authentication gate leaves the request: the
    request itself when no registry is configured, otherwise the request
    after the authenticators that were invoked. *)
Definition after_auth (self : ForkingLocalHTTPServer.t) (st : pstate) : pstate :=
  match cfg_authenticators (ForkingLocalHTTPServer.config self) with
  | None => st
  | Some authers => (ForkingLocalHTTPServer.run_authers authers st).1
  end.

(** No consumer was called. *)
Definition no_dispatch (calls : list call) : Prop :=
  ∀ prefix req, CallConsumer prefix req ∉ calls.


(** The request as the consumer found under [prefix] receives it, and the
    outcome of the pipeline when it dispatches there. *)
Definition dispatched (con : Consumer) (prefix : string) (trail : list string)
    (st : pstate) : pstate * result value :=
  let req := ForkingLocalHTTPServer.attach_trail trail (st_request st) in
  ({| st_request := (con_handle con req).1;
      st_calls := st_calls st ++ [CallConsumer prefix req] |},
   (con_handle con req).2).


(** ** Sample plugins, servers and requests *)

Module sample.
Import ForkingLocalHTTPServer.

(** A consumer that answers with its own name. *)
Definition con (name : string) : Consumer :=
  {| con_handle := λ req, (req, Return (VDict [("output", VStr name)])) |}.

(** An authenticator that grants access, one that does nothing, and one
    that fails. *)
Definition grant : Authenticator :=
  {| auth_handle := λ req, (<["valid_auth" := VBool true]> req, None) |}.
Definition idle : Authenticator :=
  {| auth_handle := λ req, (req, None) |}.
Definition faulty : Authenticator :=
  {| auth_handle := λ req, (req, Some (PluginFault "backend down")) |}.

Definition server (authers : option (list (string * Authenticator)))
    (consumers : list (string * Consumer)) : t :=
  {| config := {| cfg_consumers := Some (list_to_map consumers);
                  cfg_authenticators := authers;
                  cfg_server_string := None |};
     server_string := "Custodia/0.1" |}.

(** One granting authenticator in front of the given consumers. *)
Definition granting (consumers : list (string * Consumer)) : t :=
  server (Some [("first", grant)]) consumers.

Definition nested : t :=
  granting [("/a", con "P1"); ("/a/x", con "P2")].

Definition secrets : t := granting [("/secrets", con "A")].


(** A request for [path], as the handler would build it for a peer with
    no body and no headers. *)
Definition get (path : string) : request :=
  <["body" := VNone]>
  (<["headers" := VDict []]>
  (<["version" := VStr "HTTP/1.0"]>
  (<["url" := VStr path]>
  (<["query" := VDict []]>
  (<["path" := VStr path]>
  (<["command" := VStr "GET"]>
  (<["creds" := VDict [("pid", VInt 1); ("uid", VInt 0); ("gid", VInt 0)]]> ∅))))))).

(** A connection on which [rfile] is still to be read, and a stand-in for
    the library's parser that fills in a fixed request line and the given
    headers. *)
Definition handler (rfile : stream.t) : LocalHTTPRequestHandler.t :=
  {| LocalHTTPRequestHandler.server := secrets;
     LocalHTTPRequestHandler.rfile := rfile;
     LocalHTTPRequestHandler.wfile := [];
     LocalHTTPRequestHandler.sock_peercred := (1, 0, 0);
     LocalHTTPRequestHandler.raw_requestline := [];
     LocalHTTPRequestHandler.requestline := "";
     LocalHTTPRequestHandler.request_version := "";
     LocalHTTPRequestHandler.command := "";
     LocalHTTPRequestHandler.close_connection := false;
     LocalHTTPRequestHandler.path := "";
     LocalHTTPRequestHandler.query := VNone;
     LocalHTTPRequestHandler.url := VNone;
     LocalHTTPRequestHandler.headers := ∅;
     LocalHTTPRequestHandler.body := None |}.

Definition parsed (hs : list (string * string))
    (h : LocalHTTPRequestHandler.t) : LocalHTTPRequestHandler.t :=
  {| LocalHTTPRequestHandler.server := LocalHTTPRequestHandler.server h;
     LocalHTTPRequestHandler.rfile := LocalHTTPRequestHandler.rfile h;
     LocalHTTPRequestHandler.wfile := LocalHTTPRequestHandler.wfile h;
     LocalHTTPRequestHandler.sock_peercred := LocalHTTPRequestHandler.sock_peercred h;
     LocalHTTPRequestHandler.raw_requestline := LocalHTTPRequestHandler.raw_requestline h;
     LocalHTTPRequestHandler.requestline := "GET /secrets HTTP/1.0";
     LocalHTTPRequestHandler.request_version := "HTTP/1.0";
     LocalHTTPRequestHandler.command := "GET";
     LocalHTTPRequestHandler.close_connection := LocalHTTPRequestHandler.close_connection h;
     LocalHTTPRequestHandler.path := "/secrets";
     LocalHTTPRequestHandler.query := LocalHTTPRequestHandler.query h;
     LocalHTTPRequestHandler.url := LocalHTTPRequestHandler.url h;
     LocalHTTPRequestHandler.headers := list_to_map hs;
     LocalHTTPRequestHandler.body := LocalHTTPRequestHandler.body h |}.

Definition base_parse (hs : list (string * string))
    (h : LocalHTTPRequestHandler.t) : LocalHTTPRequestHandler.t * bool :=
  (parsed hs h, true).

Definition urlparse (target : string) : LocalHTTPRequestHandler.url_t :=
  {| LocalHTTPRequestHandler.url_path := target;
     LocalHTTPRequestHandler.url_query := "";
     LocalHTTPRequestHandler.url_value := VStr target |}.

Definition parse_qs (q : string) : value := VDict [].

(** The bytes of [GET /secrets HTTP/1.0], a newline, then [tail]. *)
Definition request_bytes (tail : list Byte.byte) : stream.t :=
  (String.list_byte_of_string "GET /secrets HTTP/1.0" ++ [Byte.x0a] ++ tail)%list.

End sample.

(** ** More vocabulary: shapes of paths *)

(** The path is ["/"], or starts with exactly one separator. *)
Definition single_root (p : string) : bool :=
  match p with
  | String c EmptyString => Ascii.eqb c pystr.sep
  | String c (String c' _) => Ascii.eqb c pystr.sep && negb (Ascii.eqb c' pystr.sep)
  | EmptyString => false
  end.

(** The path starts with two separators. *)
Definition double_root (p : string) : bool :=
  match p with
  | String c (String c' _) => Ascii.eqb c pystr.sep && Ascii.eqb c' pystr.sep
  | _ => false
  end.

(** The outcome "not found", and the outcomes in which a registered
    consumer is called with some trail. *)
Definition not_found (st : pstate) : pstate * result value :=
  (st, Raise (HTTPError 404 None)).

Definition is_dispatch (reg : gmap string Consumer) (path : string)
    (below_trail : list string) (st : pstate) (out : pstate * result value) : Prop :=
  ∃ prefix con trail,
    reg !! prefix = Some con
    ∧ prefix ≠ ""
    ∧ String.prefix prefix path = true
    ∧ Forall (λ s, pystr.sep_free s = true) trail
    ∧ out = dispatched con prefix (trail ++ below_trail) st.

(** ** The rest of the handler *)

(** [def version_string(self): return self.server.server_string] *)
Definition version_string (self : LocalHTTPRequestHandler.t) : string :=
  ForkingLocalHTTPServer.server_string (LocalHTTPRequestHandler.server self).


(** The request line was read and is of acceptable length, and the
    request line and the headers were parsed, leaving the handler [h]. *)
Definition parsed_as
    (BaseHTTPRequestHandler_parse_request :
       LocalHTTPRequestHandler.t → LocalHTTPRequestHandler.t * bool)
    (urlparse : string → LocalHTTPRequestHandler.url_t)
    (parse_qs : string → value)
    (self h : LocalHTTPRequestHandler.t) : Prop :=
  ∃ line rest,
    stream.readline 65537 (LocalHTTPRequestHandler.rfile self) = (line, rest)
    ∧ line ≠ []
    ∧ (Z.of_nat (List.length line) ≤ 65536)%Z
    ∧ LocalHTTPRequestHandler.parse_request
        BaseHTTPRequestHandler_parse_request urlparse parse_qs
        (LocalHTTPRequestHandler.set_raw_requestline line
           (LocalHTTPRequestHandler.set_rfile rest self)) = (h, true).

(** More samples: a server without authenticators and a connection to a
    given server. *)
Module sample_more.


Definition handler_of (srv : ForkingLocalHTTPServer.t) (rfile : stream.t)
  : LocalHTTPRequestHandler.t :=
  {| LocalHTTPRequestHandler.server := srv;
     LocalHTTPRequestHandler.rfile := rfile;
     LocalHTTPRequestHandler.wfile := [];
     LocalHTTPRequestHandler.sock_peercred := (1, 0, 0);
     LocalHTTPRequestHandler.raw_requestline := [];
     LocalHTTPRequestHandler.requestline := "";
     LocalHTTPRequestHandler.request_version := "";
     LocalHTTPRequestHandler.command := "";
     LocalHTTPRequestHandler.close_connection := false;
     LocalHTTPRequestHandler.path := "";
     LocalHTTPRequestHandler.query := VNone;
     LocalHTTPRequestHandler.url := VNone;
     LocalHTTPRequestHandler.headers := ∅;
     LocalHTTPRequestHandler.body := None |}.

(** The handler after the request line [GET /secrets HTTP/1.0] and the
    headers [hs] have been read from a stream that holds [tail] after
    them. *)
Definition after_parse (srv : ForkingLocalHTTPServer.t)
    (hs : list (string * string)) (tail : list Byte.byte)
  : LocalHTTPRequestHandler.t :=
  LocalHTTPRequestHandler.set_url (sample.urlparse "/secrets") (VDict [])
    (sample.parsed hs
       (LocalHTTPRequestHandler.set_raw_requestline
          (String.list_byte_of_string "GET /secrets HTTP/1.0" ++ [Byte.x0a])
          (LocalHTTPRequestHandler.set_rfile tail
             (handler_of srv (sample.request_bytes tail))))).

End sample_more.

Module sample_text.

(** A consumer that returns a text instead of a response mapping. *)
Definition con_text : Consumer :=
  {| con_handle := λ req, (req, Return (VStr "ok")) |}.

Definition texting : ForkingLocalHTTPServer.t :=
  sample.granting [("/secrets", con_text)].

End sample_text.


(** ** [class LocalHTTPServer] *)

Module LocalHTTPServer.

(** What the constructor can raise: [IndexError] from [address[0]],
    [OSError] from [os.remove], and whatever the constructor of
    [ForkingLocalHTTPServer] raises. *)
Inductive error : Type :=
| IndexError
| OSError (msg : string)
| Inner (e : exn).

(** What the constructor asks of the operating system, in order. *)
Inductive oscall : Type :=
| Exists (path : string)
| Remove (path : string)
| Bind (path : string).

Section init.

(** The operating system: whether a path exists, whether removing it
    fails, and the outcome of binding and listening in the base class
    [UnixStreamServer]. *)
Variable os_path_exists : string → bool.
Variable os_remove : string → option string.
Variable UnixStreamServer_init : string → result unit.

(** [[
    def __init__(self, address, config):
        if address[0] != '/':
            raise ValueError('Must use absolute unix socket name')
        if os.path.exists(address):
            os.remove(address)
        self.httpd = ForkingLocalHTTPServer(address, LocalHTTPRequestHandler,
                                            config)
    ]] *)
Definition __init__ (address : string) (cfg : Config)
  : list oscall * (error + ForkingLocalHTTPServer.t) :=
  match address with
  | EmptyString => ([], inl IndexError)
  | String c _ =>
      if negb (Ascii.eqb c "/"%char)
      then ([], inl (Inner (ValueError "Must use absolute unix socket name")))
      else
        let removal :=
          if os_path_exists address
          then ([Exists address; Remove address], os_remove address)
          else ([Exists address], None) in
        match removal with
        | (calls, Some msg) => (calls, inl (OSError msg))
        | (calls, None) =>
            match ForkingLocalHTTPServer.__init__
                    (UnixStreamServer_init address) cfg with
            | Raise e => (calls ++ [Bind address], inl (Inner e))
            | Return httpd => (calls ++ [Bind address], inr httpd)
            end
        end
  end.

End init.

End LocalHTTPServer.

(** ** [custodia/store/barbican.py]: [class BarbicanStore] *)

Module pysplit.

(** [s.split('/')]: the parts between the separators, empty ones
    included; never an empty list. *)
Fixpoint split (s : string) : list string :=
  match s with
  | EmptyString => [EmptyString]
  | String c r =>
      if Ascii.eqb c pystr.sep then EmptyString :: split r
      else
        match split r with
        | h :: t => String c h :: t
        | [] => [String c EmptyString]
        end
  end.

(** [l[-1]] and [l[-2]]: [None] stands for [IndexError]. *)
Definition last1 (l : list string) : option string := last l.

Definition last2 (l : list string) : option string :=
  match rev l with
  | _ :: x :: _ => Some x
  | _ => None
  end.

End pysplit.

Module BarbicanStore.

(** The exceptions that can leave a method of the store: those the
    methods raise themselves, those of the Python evaluation ([IndexError]
    from [l[-2]], [NameError] from an unbound name, [AttributeError] from
    [None.post], [KeyError] from a missing key) and whatever the Barbican
    client or the Keystone session raises. *)
Inductive error : Type :=
| CSStoreError (msg : string)
| ValueError (msg : string)
| IndexError
| NameError (name : string)
| AttributeError
| KeyError (key : string)
| ClientError (msg : string).

Inductive outcome (A : Type) : Type :=
| Ok (a : A)
| Fail (e : error).
Arguments Ok {A} a.
Arguments Fail {A} e.

(** The objects of the Barbican client, as far as the store looks at
    them.  [secret_refs] is a dictionary from names to references, in
    iteration order; reading [payload] may fetch it and so may fail;
    [store()] returns the reference of what was stored. *)
Record Container : Type := { secret_refs : list (string * string) }.
Record Secret : Type := { payload : outcome value }.
Record NewSecret : Type := { secret_store : outcome string }.
Record NewContainer : Type := { container_store : outcome string }.
Record Listed : Type := { secret_ref : string }.

Record Client : Type := {
  containers_get : string → outcome Container;
  containers_create : string → outcome NewContainer;
  containers_remove : string → outcome unit;
  secrets_get : string → outcome Secret;
  secrets_create : string → value → outcome NewSecret;
  secrets_list : outcome (list Listed)
}.

(** The Keystone session: [post(url, json=body)] and the [json()] of its
    response. *)
Record Session : Type := {
  post : string → list (string * value) → outcome (outcome (list (string * value)))
}.

(** What a method did, in order. *)
Inductive event : Type :=
| LogDebug (fmt : string) (args : list value)
| LogException (fmt : string) (args : list value)
| NewClient
| ContainersGet (href : string)
| ContainersCreate (name : string)
| ContainerStore
| ContainersRemove (name : string)
| SecretsGet (ref : string)
| SecretsCreate (name : string) (payload : value)
| SecretStore
| SecretsList
| SessionPost (url : string) (body : list (string * value)).

(** The store object: [__init__] leaves [self.session = None]. *)
Record t : Type := { session : option Session }.

Definition __init__ : t := {| session := None |}.

(** [BARBICAN_URL.format(kind, ref)] with
    [BARBICAN_URL = 'http://controller:9311/v1/{}/{}'] *)
Definition BARBICAN_URL_format (kind ref : string) : string :=
  "http://controller:9311/v1/" +:+ kind +:+ "/" +:+ ref.

(** The text [Invalid key name, cannot end in "/"], double quotes
    included. *)
Definition invalid_key_name : string :=
  "Invalid key name, cannot end in "
  +:+ String "034"%char ("/" +:+ String "034"%char EmptyString).

Section store.

(** [client.Client(session=...)] of the Barbican client library. *)
Variable client_Client : option Session → outcome Client.

(** [[
    def _get_container(self, barbican, ref):
        href = BARBICAN_URL.format('containers', ref)
        try:
            container = barbican.containers.get(href)
        except:
            self.logger.exception("Error fetching container %s", href)
            raise CSStoreError('Error occurred while trying to get container')
        return container
    ]] *)
Definition _get_container (barbican : Client) (ref : string)
  : list event * outcome Container :=
  let href := BARBICAN_URL_format "containers" ref in
  match containers_get barbican href with
  | Ok container => ([ContainersGet href], Ok container)
  | Fail _ =>
      ([ContainersGet href;
        LogException "Error fetching container %s" [VStr href]],
       Fail (CSStoreError "Error occurred while trying to get container"))
  end.

(** [[
    def _get_secret(self, barbican, ref):
        try:
            secret = barbican.secrets.get(ref)
        except:
            self.logger.exception('Error fetching key %s', href)
            raise CSStoreError('Error occurred while trying to get secret')
        return secret
    ]]
    [href] is bound neither in the function nor in the module: evaluating
    the arguments of [self.logger.exception] raises [NameError]. *)
Definition _get_secret (barbican : Client) (ref : string)
  : list event * outcome Secret :=
  match secrets_get barbican ref with
  | Ok secret => ([SecretsGet ref], Ok secret)
  | Fail _ => ([SecretsGet ref], Fail (NameError "href"))
  end.

(** [[
    for name, ref in container.secret_refs.items():
        if name == key_name:
            secret = self._get_secret(sess, ref)
            return secret.payload
    return None
    ]] *)
Fixpoint find_secret (sess : Client) (key_name : string)
    (refs : list (string * string)) : list event * outcome value :=
  match refs with
  | [] => ([], Ok VNone)
  | (name, ref) :: rest =>
      if String.eqb name key_name
      then
        match _get_secret sess ref with
        | (ev, Ok secret) => (ev, payload secret)
        | (ev, Fail e) => (ev, Fail e)
        end
      else find_secret sess key_name rest
  end.

(** [[
    def get(self, key):
        sess = self._create_barbican_session()
        key_name = key.split('/')[-1]
        container_ref = key.split('/')[-2]
        container = self._get_container(sess, container_ref)
        ...
    ]] *)
Definition get (self : t) (key : string) : list event * outcome value :=
  match client_Client (session self) with
  | Fail e => ([NewClient], Fail e)
  | Ok sess =>
      match pysplit.last1 (pysplit.split key) with
      | None => ([NewClient], Fail IndexError)
      | Some key_name =>
          match pysplit.last2 (pysplit.split key) with
          | None => ([NewClient], Fail IndexError)
          | Some container_ref =>
              match _get_container sess container_ref with
              | (ev, Fail e) => (NewClient :: ev, Fail e)
              | (ev, Ok container) =>
                  let '(ev', r) := find_secret sess key_name (secret_refs container) in
                  (NewClient :: ev ++ ev', r)
              end
          end
      end
  end.

(** [[
    def set(self, key, value, replace=False):
        self.logger.debug('Setting key %s to value %s (replace=%s)',
                          key, value, replace)
        if key.endswith('/'):
            raise ValueError('Invalid key name, cannot end in "/"')
        container_ref = key.split('/')[-2]
        keyid = key.split('/')[-1]
        sess = self._create_barbican_session()
        secret = sess.secrets.create(name=keyid,payload=value)
        secret_ref = secret.store()
        json_body = {'name': keyid, 'secret_ref': secret_ref}
        url = BARBICAN_URL.format('containers', container_ref) + '/secrets'
        response = self.session.post(url, json=json_body)
        return response.json()['container_ref']
    ]] *)
Definition set (self : t) (key : string) (v : value) (replace : bool)
  : list event * outcome value :=
  let log := LogDebug "Setting key %s to value %s (replace=%s)"
               [VStr key; v; VBool replace] in
  if pystr.endswith_sep key
  then ([log], Fail (ValueError invalid_key_name))
  else
    match pysplit.last2 (pysplit.split key) with
    | None => ([log], Fail IndexError)
    | Some container_ref =>
        match pysplit.last1 (pysplit.split key) with
        | None => ([log], Fail IndexError)
        | Some keyid =>
            match client_Client (session self) with
            | Fail e => ([log; NewClient], Fail e)
            | Ok sess =>
                match secrets_create sess keyid v with
                | Fail e => ([log; NewClient; SecretsCreate keyid v], Fail e)
                | Ok secret =>
                    match secret_store secret with
                    | Fail e =>
                        ([log; NewClient; SecretsCreate keyid v; SecretStore], Fail e)
                    | Ok secret_ref =>
                        let json_body :=
                          [("name", VStr keyid); ("secret_ref", VStr secret_ref)] in
                        let url :=
                          BARBICAN_URL_format "containers" container_ref +:+ "/secrets" in
                        let done :=
                          [log; NewClient; SecretsCreate keyid v; SecretStore] in
                        match session self with
                        | None => (done, Fail AttributeError)
                        | Some s =>
                            match post s url json_body with
                            | Fail e => (done ++ [SessionPost url json_body], Fail e)
                            | Ok (Fail e) =>
                                (done ++ [SessionPost url json_body], Fail e)
                            | Ok (Ok body) =>
                                (done ++ [SessionPost url json_body],
                                 match
                                   list_find (λ kv, kv.1 = "container_ref") body
                                 with
                                 | Some (_, (_, ref)) => Ok ref
                                 | None => Fail (KeyError "container_ref")
                                 end)
                            end
                        end
                    end
                end
            end
        end
    end.

(** [[
    def span(self, key):
        barbican = self._create_barbican_session()
        name = key.rsplit('/')[-2]
        self.logger.debug('Creating container %s', name)
        container = barbican.containers.create(name=name)
        return str(container.store())
    ]]
    [rsplit] without a limit gives the same list as [split]. *)
Definition span (self : t) (key : string) : list event * outcome value :=
  match client_Client (session self) with
  | Fail e => ([NewClient], Fail e)
  | Ok barbican =>
      match pysplit.last2 (pysplit.split key) with
      | None => ([NewClient], Fail IndexError)
      | Some name =>
          let log := LogDebug "Creating container %s" [VStr name] in
          match containers_create barbican name with
          | Fail e => ([NewClient; log; ContainersCreate name], Fail e)
          | Ok container =>
              match container_store container with
              | Fail e =>
                  ([NewClient; log; ContainersCreate name; ContainerStore], Fail e)
              | Ok href =>
                  ([NewClient; log; ContainersCreate name; ContainerStore],
                   Ok (VStr href))
              end
          end
      end
  end.

(** [[
    def cut(self, key):
        barbican = self._create_barbican_session()
        name = key.rstrip('/')
        self.logger.debug('Removing container %s', name)
        barbican.containers.remove(name)
    ]] *)
Definition cut (self : t) (key : string) : list event * outcome value :=
  match client_Client (session self) with
  | Fail e => ([NewClient], Fail e)
  | Ok barbican =>
      let name := pystr.rstrip key in
      let log := LogDebug "Removing container %s" [VStr name] in
      match containers_remove barbican name with
      | Fail e => ([NewClient; log; ContainersRemove name], Fail e)
      | Ok _ => ([NewClient; log; ContainersRemove name], Ok VNone)
      end
  end.

(** [[
    def list(self, keyfilter=''):
        path = keyfilter.rstrip('/')
        self.logger.debug('Listing keys matching %s', path)
        child_prefix = path if path == '' else path + '/'
        barbican = self._create_barbican_session()
        values = barbican.secrets.list()
        secrets = []
        for value in values:
            secrets.append(value.secret_ref)
        return secrets
    ]] *)
Definition list (self : t) (keyfilter : string) : list event * outcome value :=
  let path := pystr.rstrip keyfilter in
  let log := LogDebug "Listing keys matching %s" [VStr path] in
  let child_prefix := if String.eqb path "" then path else path +:+ "/" in
  match client_Client (session self) with
  | Fail e => ([log; NewClient], Fail e)
  | Ok barbican =>
      match secrets_list barbican with
      | Fail e => ([log; NewClient; SecretsList], Fail e)
      | Ok values =>
          ([log; NewClient; SecretsList],
           Ok (VList ((λ v, VStr (secret_ref v)) <$> values)))
      end
  end.

End store.

End BarbicanStore.

(** Sample Barbican clients. *)
Module sample_store.
Import BarbicanStore.

(** A client over one container, [c1], that holds the secret [k1] with
    reference [ref1]; fetching that secret works or fails as told. *)
Definition client (secret_ok : bool) : Client :=
  {| containers_get := λ href,
       if String.eqb href (BARBICAN_URL_format "containers" "c1")
       then Ok {| secret_refs := [("k0", "ref0"); ("k1", "ref1")] |}
       else Fail (ClientError "404");
     containers_create := λ name, Ok {| container_store := Ok ("href-of-" +:+ name) |};
     containers_remove := λ name, Ok tt;
     secrets_get := λ ref,
       if secret_ok then Ok {| payload := Ok (VStr ("payload-of-" +:+ ref)) |}
       else Fail (ClientError "500");
     secrets_create := λ name v, Ok {| secret_store := Ok ("ref-of-" +:+ name) |};
     secrets_list := Ok [ {| secret_ref := "ref0" |}; {| secret_ref := "ref1" |} ] |}.

Definition factory (secret_ok : bool) (s : option Session) : outcome Client :=
  Ok (client secret_ok).

End sample_store.

(** * Properties *)

(** ** Splitting a path at its last separator *)

Module posixpath_facts.
Import pystr.

Lemma rfind_from_sep_free (s : string) (i last : Z) :
  sep_free s = true → rfind_from s i last = last.
Proof.
  revert i last. induction s as [|c r IH]; intros i last Hs; [done|].
  simpl in *. apply andb_true_iff in Hs as [Hc Hr].
  apply negb_true_iff in Hc. rewrite Hc. by apply IH.
Qed.

Lemma rfind_from_app (a s : string) (i last : Z) :
  sep_free s = true →
  rfind_from (a +:+ String sep s) i last = (i + Z.of_nat (len a))%Z.
Proof.
  intros Hs. revert i last.
  induction a as [|c r IH]; intros i last; simpl.
  - rewrite rfind_from_sep_free by done. unfold len. simpl. lia.
  - rewrite IH. unfold len. simpl. lia.
Qed.

Lemma take_app (a s : string) :
  take (S (len a)) (a +:+ String sep s) = a +:+ String sep "".
Proof. induction a as [|c r IH]; simpl; [by destruct s|]. by rewrite IH. Qed.

Lemma drop_app (a s : string) :
  drop (S (len a)) (a +:+ String sep s) = s.
Proof. induction a as [|c r IH]; simpl; [by destruct s|]. done. Qed.

Lemma rstrip_snoc_sep (a : string) :
  rstrip (a +:+ String sep "") = rstrip a.
Proof.
  induction a as [|c r IH]; simpl; [done|]. by rewrite IH.
Qed.

Lemma rstrip_id (a : string) :
  endswith_sep a = false → rstrip a = a.
Proof.
  induction a as [|c r IH]; [done|]. simpl.
  destruct r as [|c' r'].
  - simpl. by intros ->.
  - intros Hr. rewrite IH by done. done.
Qed.

Lemma repeat_sep_endswith (n : nat) (a : string) :
  a ≠ "" → a = repeat_sep n → endswith_sep a = true.
Proof.
  revert a. induction n as [|n IH]; intros a Hne ->; [done|].
  simpl. destruct n as [|n]; [done|].
  change (endswith_sep (repeat_sep (S n)) = true). by apply IH.
Qed.

Lemma snoc_sep_not_all_sep (a : string) (n : nat) :
  a ≠ "" → endswith_sep a = false → a +:+ String sep "" ≠ repeat_sep n.
Proof.
  revert n. induction a as [|c r IH]; intros n Hne He; [done|].
  destruct n as [|n]; [done|]. simpl. intros [= Hc Hr].
  destruct r as [|c' r'].
  - simpl in He. subst c. by rewrite Ascii.eqb_refl in He.
  - by apply (IH n).
Qed.

(** The step of the walk: a path [a/s] whose last segment [s] holds no
    separator splits into [a] and [s]; the parent of a top-level name is
    the root. *)
Lemma split_snoc (a s : string) :
  endswith_sep a = false → sep_free s = true →
  posixpath.split (a +:+ String sep s)
  = (if String.eqb a "" then "/" else a, s).
Proof.
  intros Ha Hs. unfold posixpath.split, rfind.
  rewrite rfind_from_app by done.
  replace (Z.to_nat (0 + Z.of_nat (len a) + 1)) with (S (len a)) by lia.
  rewrite take_app, drop_app. f_equal.
  destruct a as [|c r]; [done|].
  assert (Hne : String c r ≠ "") by done.
  destruct (String.eqb_spec (String c r +:+ String sep "") "") as [E|_];
    [by destruct r|].
  destruct (String.eqb_spec (String c r +:+ String sep "")
              (repeat_sep (len (String c r +:+ String sep "")))) as [E|_].
  - by apply snoc_sep_not_all_sep in E.
  - simpl negb. cbv [andb]. rewrite rstrip_snoc_sep, rstrip_id by done.
    done.
Qed.

Lemma endswith_sep_app (a b : string) :
  b ≠ "" → endswith_sep (a +:+ b) = endswith_sep b.
Proof.
  intros Hb. induction a as [|c r IH]; [done|].
  simpl. destruct (r +:+ b) eqn:E; [|done].
  destruct r; simpl in E; [exfalso; by apply Hb | done].
Qed.

Lemma app_not_empty (a : string) (c : ascii) (s : string) :
  String.eqb (a +:+ String c s) "" = false.
Proof. by destruct a. Qed.

Lemma isabs_app (a b : string) :
  posixpath.isabs a = true → posixpath.isabs (a +:+ b) = true.
Proof. by destruct a. Qed.

End posixpath_facts.

Example split_leaf : posixpath.split "/secrets/app1/key1" = ("/secrets/app1", "key1").
Proof. reflexivity. Qed.

Example split_top : posixpath.split "/secrets" = ("/", "secrets").
Proof. reflexivity. Qed.

Example split_double_root : posixpath.split "//" = ("//", "").
Proof. reflexivity. Qed.

Example split_trailing : posixpath.split "/a//" = ("/a", "").
Proof. reflexivity. Qed.

(** ** The walk from the request path to the root *)

Module walk_facts.
Import pystr posixpath_facts ForkingLocalHTTPServer.

Lemma segment_inv (s : string) :
  segment s = true → s ≠ "" ∧ sep_free s = true.
Proof.
  unfold segment. intros [Hne Hs]%andb_true_iff. split; [|done].
  intros ->. done.
Qed.

Lemma sep_free_endswith (s : string) :
  sep_free s = true → endswith_sep s = false.
Proof.
  induction s as [|c r IH]; [done|]. simpl.
  intros [Hc Hr]%andb_true_iff. apply negb_true_iff in Hc.
  destruct r; [done | by apply IH].
Qed.

Lemma child_endswith (p s : string) :
  segment s = true → endswith_sep (child p s) = false.
Proof.
  intros [Hne Hs]%segment_inv. unfold child.
  change (String sep s) with (String sep "" +:+ s).
  rewrite endswith_sep_app by (by destruct s).
  destruct s as [|c r]; [done|].
  simpl. apply sep_free_endswith in Hs. by destruct r.
Qed.

Lemma child_eqb_empty (p s : string) : String.eqb (child p s) "" = false.
Proof. apply app_not_empty. Qed.

Lemma child_eqb_root (p s : string) :
  s ≠ "" → String.eqb (child p s) "/" = false.
Proof.
  intros Hs. apply String.eqb_neq. unfold child.
  destruct p as [|c [|c' r]]; intros E; cbv [String.append] in E;
    [congruence | by destruct s..].
Qed.

Lemma child_ne (p s : string) : p ≠ child p s.
Proof.
  unfold child. induction p as [|c r IH]; [done|].
  intros E. cbv [String.append] in E. fold String.append in E.
  injection E as E. by apply IH.
Qed.

Lemma select_dispatch fuel reg st path trail con :
  path ≠ "" → reg !! path = Some con →
  select (S fuel) (Some reg) st path trail = Some (dispatched con path trail st).
Proof.
  intros Hne Hcon. simpl.
  apply String.eqb_neq in Hne. rewrite Hne, Hcon.
  unfold dispatched. by destruct (con_handle con _).
Qed.

(** One turn of the loop on an unregistered path [p/s]. *)
Lemma select_step fuel reg st p s trail :
  endswith_sep p = false → segment s = true →
  reg !! child p s = None →
  select (S fuel) (Some reg) st (child p s) trail
  = select fuel (Some reg) st (if String.eqb p "" then "/" else p) (s :: trail).
Proof.
  intros Hp Hseg Hreg. destruct (segment_inv _ Hseg) as [Hne Hs].
  cbn [select]. rewrite child_eqb_empty, Hreg, child_eqb_root by done.
  unfold child. by rewrite split_snoc.
Qed.

(** The walk peels the segments off from the right and collects them in
    their original order. *)
Lemma select_walk reg st segs : ∀ p fuel trail,
  segs ≠ [] →
  endswith_sep p = false →
  forallb segment segs = true →
  unregistered reg p segs = true →
  select (List.length segs + fuel) (Some reg) st (under p segs) trail
  = select fuel (Some reg) st (if String.eqb p "" then "/" else p) (segs ++ trail).
Proof.
  induction segs as [|s r IH]; intros p fuel trail Hne Hp Hsegs Hun; [done|].
  simpl in Hsegs, Hun. apply andb_true_iff in Hsegs as [Hs Hr].
  destruct (reg !! child p s) eqn:Hreg; [done|].
  destruct r as [|s' r'].
  - simpl. by apply select_step.
  - cbn [under List.length]. cbn [under] in IH.
    replace (S (S (List.length r')) + fuel)%nat
      with (List.length (s' :: r') + S fuel)%nat by (simpl; lia).
    rewrite (IH (child p s) (S fuel) trail); [|done|by apply child_endswith|done..].
    rewrite child_eqb_empty. rewrite select_step by done. done.
Qed.

Lemma isabs_under (segs : list string) : ∀ p,
  posixpath.isabs p = true → posixpath.isabs (under p segs) = true.
Proof.
  induction segs as [|s r IH]; intros p Hp; [done|].
  simpl. apply IH. by apply isabs_app.
Qed.


(** The router on the path [P/s1/.../sn]: when none of the longer
    prefixes is registered the consumer registered under [P] is called,
    with the segments as trail. *)
Lemma select_below reg st P con segs fuel :
  reg !! P = Some con →
  posixpath.isabs P = true →
  (segs ≠ [] → P = "/" ∨ endswith_sep P = false) →
  forallb segment segs = true →
  unregistered reg (if String.eqb P "/" then "" else P) segs = true →
  (List.length segs < fuel)%nat →
  select fuel (Some reg) st (below P segs) []
  = Some (dispatched con P segs st).
Proof.
  intros Hcon Habs HP Hsegs Hun Hfuel.
  assert (HPne : P ≠ "") by (by intros ->).
  destruct segs as [|s r].
  - destruct fuel as [|fuel]; [simpl in Hfuel; lia|].
    by apply select_dispatch.
  - unfold below.
    replace fuel with (List.length (s :: r) + S (fuel - S (List.length (s :: r))))%nat
      by lia.
    rewrite select_walk; [|done| |done..].
    + rewrite app_nil_r.
      replace (if String.eqb (if String.eqb P "/" then "" else P) ""
               then "/" else if String.eqb P "/" then "" else P) with P.
      * by apply select_dispatch.
      * destruct (String.eqb_spec P "/") as [->|_]; [done|].
        by destruct (String.eqb_spec P "").
    + destruct (String.eqb_spec P "/") as [->|Hr]; [done|].
      destruct HP as [?|?]; done.
Qed.

(** A path in which the root is the only registered ancestor left to try
    and is not registered either: the walk ends with 404. *)
Lemma select_not_found reg st segs fuel :
  segs ≠ [] →
  forallb segment segs = true →
  unregistered reg "" segs = true →
  reg !! "/" = None →
  (S (List.length segs) < fuel)%nat →
  select fuel (Some reg) st (under "" segs) []
  = Some (st, Raise (HTTPError 404 None)).
Proof.
  intros Hne Hsegs Hun Hroot Hfuel.
  replace fuel with (List.length segs + S (S (fuel - S (S (List.length segs)))))%nat
    by lia.
  rewrite select_walk by done. cbn [String.eqb select]. by rewrite Hroot.
Qed.

(** The parent of ["//"] is ["//"] again: once the walk is there it
    never leaves. *)
Lemma select_double_root reg st fuel : ∀ trail,
  reg !! "//" = None → select fuel (Some reg) st "//" trail = None.
Proof.
  induction fuel as [|fuel IH]; intros trail Hreg; [done|].
  cbn [select]. rewrite Hreg. change (posixpath.split "//") with ("//", "").
  cbn [String.eqb Ascii.eqb Bool.eqb]. cbv iota. by apply IH.
Qed.

End walk_facts.

(** ** The authentication gate *)

Module gate_facts.
Import ForkingLocalHTTPServer.

Lemma run_authers_normal (authers : list (string * Authenticator)) : ∀ st,
  Forall (λ na, returns_normally na.2) authers →
  (run_authers authers st).2 = None
  ∧ st_calls (run_authers authers st).1
    = st_calls st ++ (CallAuth <$> authers.*1).
Proof.
  induction authers as [|[name a] rest IH]; intros st Hn; simpl.
  - by rewrite app_nil_r.
  - apply Forall_cons in Hn as [Ha Hrest]. specialize (Ha (st_request st)).
    simpl in Ha. destruct (auth_handle a (st_request st)) as [req' r].
    simpl in Ha. subst r.
    destruct (IH {| st_request := req'; st_calls := st_calls st ++ [CallAuth name] |} Hrest)
      as [-> ->].
    simpl. by rewrite <- app_assoc.
Qed.

(** Past the gate the pipeline is the router applied to the request the
    authenticators left behind, or the 403 of the gate. *)
Lemma pipeline_gate fuel self authers st :
  cfg_authenticators (config self) = Some authers →
  Forall (λ na, returns_normally na.2) authers →
  pipeline fuel self st
  = if valid_auth (st_request (after_auth self st))
    then select_consumer fuel self (after_auth self st)
    else Some (after_auth self st, Raise (HTTPError 403 None)).
Proof.
  intros Hcfg Hn. unfold pipeline, after_auth. rewrite Hcfg.
  destruct (run_authers_normal authers st Hn) as [Hr _].
  destruct (run_authers authers st) as [st1 r]. simpl in *. subst r.
  by destruct (valid_auth (st_request st1)).
Qed.


Lemma select_no_dispatch fuel consumers : ∀ st path trail st' r,
  select fuel consumers st path trail = Some (st', r) →
  no_dispatch (st_calls st') → st' = st.
Proof.
  induction fuel as [|fuel IH]; intros st path trail st' r; [done|].
  simpl. destruct (String.eqb path ""); [by intros [= <- <-]|].
  destruct consumers as [reg|]; [|by intros [= <- <-]].
  destruct (reg !! path) as [con|].
  - destruct (con_handle con _) as [req' r']. intros [= <- <-] Hnd.
    exfalso. apply (Hnd path (attach_trail trail (st_request st))).
    simpl. apply elem_of_app. right. apply list_elem_of_singleton. done.
  - destruct (String.eqb path "/"); [by apply IH|].
    destruct (posixpath.split path). by apply IH.
Qed.


End gate_facts.

(** ** Statements about the gate and the constructor *)

Import ForkingLocalHTTPServer.

Example preauthenticated_request_passes_empty_registry :
  pipeline 1 (sample.server (Some []) [("/", sample.con "root")])
    (start (<["valid_auth" := VBool true]> (sample.get "/")))
  = Some (dispatched (sample.con "root") "/" []
            (start (<["valid_auth" := VBool true]> (sample.get "/")))).
Proof. reflexivity. Qed.




(** C2, as stated, fails: a configuration whose [consumers] mapping is
    present but empty is accepted by the constructor. *)
Lemma empty_consumers_accepted :
  __init__ (Return tt)
    {| cfg_consumers := Some ∅; cfg_authenticators := None;
       cfg_server_string := None |}
  = Return {| config := {| cfg_consumers := Some ∅; cfg_authenticators := None;
                           cfg_server_string := None |};
              server_string := "Custodia/0.1" |}.
Proof. reflexivity. Qed.

(** C2, amended.  Once the socket is bound, construction fails, with a
    [ValueError], exactly when the configuration has no [consumers] key;
    any mapping under that key, the empty one included, is accepted and
    kept as the server's configuration. *)
Theorem init_requires_consumers_key (cfg : Config) :
  match cfg_consumers cfg with
  | None =>
      __init__ (Return tt) cfg
      = Raise (ValueError "Configuration does not provide any consumer")
  | Some _ =>
      ∃ self, __init__ (Return tt) cfg = Return self ∧ config self = cfg
  end.
Proof.
  unfold __init__. destruct (cfg_consumers cfg); [|done]. by eexists.
Qed.





(** C10.  When the pipeline ends with an exception and no consumer was
    called (the 403 of the gate, the 400 for a path that is not absolute,
    the 404 of the walk), the request is exactly as the authentication gate
    left it: the walk has stored nothing in it.  So a request without a
    [trail] key after the gate has none when the error is raised. *)
Theorem error_paths_leave_no_trail (self : ForkingLocalHTTPServer.t)
    (st st' : pstate) (fuel : nat) (e : exn) :
  pipeline fuel self st = Some (st', Raise e) →
  no_dispatch (st_calls st') →
  st_request (after_auth self st) !! "trail" = None →
  st' = after_auth self st ∧ st_request st' !! "trail" = None.
Proof.
  intros Hp Hnd Htrail.
  assert (st' = after_auth self st) as ->; [|done].
  revert Hp. unfold pipeline, after_auth.
  destruct (cfg_authenticators (config self)) as [authers|]; [|by intros [= <- _]].
  destruct (run_authers authers st) as [st1 [e1|]]; [by intros [= <- _]|].
  simpl. destruct (valid_auth (st_request st1)); simpl; [|by intros [= <- _]].
  unfold select_consumer.
  destruct (default _ _) as [| | |path| | | |]; try by intros [= <- _].
  destruct (posixpath.isabs path); simpl; [|by intros [= <- _]].
  intros Hsel. by apply gate_facts.select_no_dispatch in Hsel.
Qed.

Lemma error_paths_leave_no_trail_witness :
  pipeline 4 sample.secrets (start (sample.get "/other/app1"))
  = Some (after_auth sample.secrets (start (sample.get "/other/app1")),
          Raise (HTTPError 404 None))
  ∧ st_request (after_auth sample.secrets (start (sample.get "/other/app1")))
    !! "trail" = None.
Proof.
  split; [reflexivity|].
  refine (proj2 (error_paths_leave_no_trail sample.secrets
                   (start (sample.get "/other/app1"))
                   (after_auth sample.secrets (start (sample.get "/other/app1")))
                   4 (HTTPError 404 None) _ _ _)); try reflexivity.
  intros prefix req Hin. simpl in Hin.
  apply list_elem_of_singleton in Hin. discriminate.
Defined.

(** ** Statements about the router *)

Example secrets_scenario :
  pipeline 3 (sample.server (Some [("first", sample.grant)])
                [("/secrets", sample.con "A")])
    (start (sample.get "/secrets/app1/key1"))
  = Some (dispatched (sample.con "A") "/secrets" ["app1"; "key1"]
            (after_auth (sample.server (Some [("first", sample.grant)])
                           [("/secrets", sample.con "A")])
               (start (sample.get "/secrets/app1/key1")))).
Proof. reflexivity. Qed.

(** C3, as stated, fails: when the request path [P2/y] is itself a key of
    the registry, next to [P1] and [P2 = P1/x], the request goes to the
    consumer of [P2/y], with no trail, and not to the consumer of [P2]. *)
Lemma deepest_prefix_is_the_path_itself :
  snd <$> pipeline 3
            (sample.server (Some [("first", sample.grant)])
               [("/a", sample.con "P1"); ("/a/x", sample.con "P2");
                ("/a/x/y", sample.con "P2/y")])
            (start (sample.get "/a/x/y"))
  = Some (Return (VDict [("output", VStr "P2/y")]))
  ∧ st_calls <$> (fst <$> pipeline 3
            (sample.server (Some [("first", sample.grant)])
               [("/a", sample.con "P1"); ("/a/x", sample.con "P2");
                ("/a/x/y", sample.con "P2/y")])
            (start (sample.get "/a/x/y")))
  = Some [CallAuth "first";
          CallConsumer "/a/x/y" (<["valid_auth" := VBool true]> (sample.get "/a/x/y"))].
Proof. split; reflexivity. Qed.

(** C3, amended.  For an authenticated request and a registry in which an
    absolute prefix [P1] and its descendant [P2 = P1/x] are both keys, and
    in which the request path [P2/y] is not itself a key, the request for
    [P2/y] is handed to the consumer of [P2] with the trail [[y]]; the
    consumer of [P1] is not called.  ([x] and [y] are any segments.) *)
Theorem deeper_prefix_preferred (self : ForkingLocalHTTPServer.t)
    (authers : list (string * Authenticator)) (reg : gmap string Consumer)
    (st : pstate) (fuel : nat) (P1 x y : string) (c1 c2 : Consumer) :
  cfg_authenticators (config self) = Some authers →
  Forall (λ na, returns_normally na.2) authers →
  valid_auth (st_request (after_auth self st)) = true →
  cfg_consumers (config self) = Some reg →
  reg !! P1 = Some c1 →
  reg !! child P1 x = Some c2 →
  reg !! child (child P1 x) y = None →
  posixpath.isabs P1 = true →
  segment x = true → segment y = true →
  st_request (after_auth self st) !! "path" = Some (VStr (child (child P1 x) y)) →
  no_dispatch (st_calls st) →
  (2 ≤ fuel)%nat →
  pipeline fuel self st
  = Some (dispatched c2 (child P1 x) [y] (after_auth self st))
  ∧ attach_trail [y] (st_request (after_auth self st)) !! "trail"
    = Some (VList [VStr y])
  ∧ ∀ req, CallConsumer P1 req
           ∉ st_calls (dispatched c2 (child P1 x) [y] (after_auth self st)).1.
Proof.
  intros Hcfg Hn Hv Hreg _ Hc2 Hleaf Habs Hx Hy Hpath Hnd Hfuel.
  split; [|split].
  - rewrite (gate_facts.pipeline_gate _ _ _ _ Hcfg Hn), Hv.
    unfold select_consumer. rewrite Hpath, Hreg. simpl default. cbv iota.
    assert (posixpath.isabs (child (child P1 x) y) = true) as ->
      by (unfold child; by do 2 apply posixpath_facts.isabs_app).
    simpl negb. cbv iota.
    assert (Hxne : x ≠ "") by (by destruct (walk_facts.segment_inv _ Hx)).
    replace (child (child P1 x) y) with (below (child P1 x) [y])
      by (unfold below; by rewrite walk_facts.child_eqb_root).
    apply (walk_facts.select_below reg _ (child P1 x) c2 [y]).
    + done.
    + by apply posixpath_facts.isabs_app.
    + intros _. right. by apply walk_facts.child_endswith.
    + simpl. by rewrite Hy.
    + rewrite walk_facts.child_eqb_root by done.
      simpl. by rewrite Hleaf.
    + simpl. lia.
  - unfold attach_trail. simpl. by rewrite lookup_insert_eq.
  - intros req Hin. simpl in Hin.
    destruct (gate_facts.run_authers_normal authers st Hn) as [_ Hcalls].
    unfold after_auth in Hin. rewrite Hcfg, Hcalls in Hin.
    apply elem_of_app in Hin as [Hin|Hin].
    + apply elem_of_app in Hin as [Hin|Hin]; [by apply Hnd in Hin|].
      apply list_elem_of_fmap in Hin as (? & [=] & _).
    + apply list_elem_of_singleton in Hin. injection Hin as Heq _.
      by apply walk_facts.child_ne in Heq.
Qed.

Lemma deeper_prefix_preferred_witness :
  pipeline 2 sample.nested (start (sample.get "/a/x/y"))
  = Some (dispatched (sample.con "P2") "/a/x" ["y"]
            (after_auth sample.nested (start (sample.get "/a/x/y")))).
Proof.
  refine (proj1 (deeper_prefix_preferred sample.nested [("first", sample.grant)]
                   (list_to_map [("/a", sample.con "P1"); ("/a/x", sample.con "P2")])
                   (start (sample.get "/a/x/y")) 2 "/a" "x" "y"
                   (sample.con "P1") (sample.con "P2")
                   _ _ _ _ _ _ _ _ _ _ _ _ _)); try reflexivity.
  - repeat constructor.
  - intros prefix req Hin. by apply elem_of_nil in Hin.
Defined.




(** C6: the code at the failing input.  The request is authenticated, its
    path ["//a"] is absolute, and neither ["//a"] nor any parent nor the
    root is registered; the walk goes from ["//a"] to ["//"], whose parent
    is ["//"] again, and never reaches the test for the root: whatever the
    number of iterations allowed, the pipeline has not answered. *)
Theorem double_separator_path_never_answered (fuel : nat) :
  posixpath.isabs "//a" = true
  ∧ valid_auth (st_request (after_auth sample.secrets (start (sample.get "//a")))) = true
  ∧ (∀ reg, cfg_consumers (config sample.secrets) = Some reg →
            reg !! "//a" = None ∧ reg !! "//" = None ∧ reg !! "/" = None)
  ∧ pipeline fuel sample.secrets (start (sample.get "//a")) = None.
Proof.
  split; [done|]. split; [done|]. split; [by intros reg [= <-]|].
  destruct fuel as [|fuel]; [done|].
  change (pipeline (S fuel) sample.secrets (start (sample.get "//a")))
    with (select fuel (Some (list_to_map [("/secrets", sample.con "A")]))
            (after_auth sample.secrets (start (sample.get "//a"))) "//" ["a"]).
  by apply walk_facts.select_double_root.
Qed.

(** Where the walk does end: below the root, with nothing registered on
    the way up nor at the root, the answer is 404. *)
Lemma normal_path_not_found (self : ForkingLocalHTTPServer.t)
    (authers : list (string * Authenticator)) (reg : gmap string Consumer)
    (st : pstate) (fuel : nat) (segs : list string) :
  cfg_authenticators (config self) = Some authers →
  Forall (λ na, returns_normally na.2) authers →
  valid_auth (st_request (after_auth self st)) = true →
  cfg_consumers (config self) = Some reg →
  segs ≠ [] → forallb segment segs = true →
  unregistered reg "" segs = true → reg !! "/" = None →
  st_request (after_auth self st) !! "path" = Some (VStr (under "" segs)) →
  (S (List.length segs) < fuel)%nat →
  pipeline fuel self st = Some (after_auth self st, Raise (HTTPError 404 None)).
Proof.
  intros Hcfg Hn Hv Hreg Hne Hsegs Hun Hroot Hpath Hfuel.
  rewrite (gate_facts.pipeline_gate _ _ _ _ Hcfg Hn), Hv.
  unfold select_consumer. rewrite Hpath, Hreg. simpl default. cbv iota.
  destruct segs as [|s r]; [done|].
  assert (posixpath.isabs (under "" (s :: r)) = true) as ->
    by (cbn [under]; by apply walk_facts.isabs_under).
  by apply walk_facts.select_not_found.
Qed.

(** ** Statements about the body parser and the connection handler *)

Example int_plain : pyint.int "10485761" = Some 10485761.
Proof. reflexivity. Qed.

Example int_spaces_and_sign : pyint.int " -42 " = Some (-42).
Proof. reflexivity. Qed.

Example int_letters : pyint.int "abc" = None.
Proof. reflexivity. Qed.

Example int_empty : pyint.int "" = None.
Proof. reflexivity. Qed.

Module body_facts.
Import LocalHTTPRequestHandler.


End body_facts.

Import LocalHTTPRequestHandler.

Example oversized_body_scenario :
  parse_body (sample.parsed [("content-length", "10485761")]
                (sample.handler [Byte.x61; Byte.x62]))
  = (sample.parsed [("content-length", "10485761")]
       (sample.handler [Byte.x61; Byte.x62]),
     Raise (HTTPError 413 None)).
Proof. reflexivity. Qed.




Example malformed_length_scenario :
  handle_one_request (sample.base_parse [("content-length", "abc")])
    sample.urlparse sample.parse_qs 4
    (sample.handler (sample.request_bytes []))
  = Some (set_url (sample.urlparse "/secrets") (VDict [])
            (sample.parsed [("content-length", "abc")]
               (set_raw_requestline
                  (String.list_byte_of_string "GET /secrets HTTP/1.0" ++ [Byte.x0a])
                  (set_rfile [] (sample.handler (sample.request_bytes []))))),
          Raise (ValueError "invalid literal for int() with base 10")).
Proof. reflexivity. Qed.



(** * Further properties of the code *)

(** ** More about [posixpath.split] *)

Module split_facts.
Import pystr posixpath_facts.

(** Every path is free of separators or splits at its last one. *)
Lemma last_sep_decomp (p : string) :
  sep_free p = true
  ∨ ∃ a s, p = a +:+ String sep s ∧ sep_free s = true.
Proof.
  induction p as [|c r IH]; [by left|].
  destruct IH as [Hr | (a & s & -> & Hs)].
  - destruct (Ascii.eqb c sep) eqn:Hc.
    + right. exists "", r. apply Ascii.eqb_eq in Hc as ->. done.
    + left. simpl. by rewrite Hc.
  - right. by exists (String c a), s.
Qed.

Lemma split_sep_free (p : string) :
  sep_free p = true → posixpath.split p = ("", p).
Proof.
  intros Hp. unfold posixpath.split, rfind.
  rewrite rfind_from_sep_free by done. simpl. by destruct p.
Qed.

Lemma split_app (a s : string) :
  sep_free s = true →
  posixpath.split (a +:+ String sep s)
  = (if negb (String.eqb (a +:+ String sep "") "")
        && negb (String.eqb (a +:+ String sep "")
                   (repeat_sep (len (a +:+ String sep ""))))
     then rstrip a else a +:+ String sep "", s).
Proof.
  intros Hs. unfold posixpath.split, rfind.
  rewrite rfind_from_app by done.
  replace (Z.to_nat (0 + Z.of_nat (len a) + 1)) with (S (len a)) by lia.
  by rewrite take_app, drop_app, rstrip_snoc_sep.
Qed.

Lemma rstrip_cons (c : ascii) (r : string) :
  rstrip r ≠ "" → rstrip (String c r) = String c (rstrip r).
Proof. simpl. by destruct (rstrip r). Qed.

Lemma rstrip_empty (a : string) :
  rstrip a = "" → a = repeat_sep (len a).
Proof.
  induction a as [|c r IH]; [done|]. simpl.
  destruct (rstrip r) eqn:E; [|done].
  destruct (Ascii.eqb c sep) eqn:Hc; [|done].
  intros _. apply Ascii.eqb_eq in Hc as ->. f_equal. by apply IH.
Qed.

Lemma rstrip_repeat (n : nat) : rstrip (repeat_sep n) = "".
Proof. induction n as [|n IH]; [done|]. simpl. by rewrite IH. Qed.

Lemma rstrip_suffix (a : string) : ∃ n, a = rstrip a +:+ repeat_sep n.
Proof.
  induction a as [|c r [n IH]]; [by exists 0%nat|].
  simpl. destruct (rstrip r) eqn:E.
  - destruct (Ascii.eqb c sep) eqn:Hc.
    + apply Ascii.eqb_eq in Hc as ->. exists (S n). by rewrite IH at 1.
    + exists n. by rewrite IH at 1.
  - exists n. by rewrite IH at 1.
Qed.

Lemma rstrip_length (a : string) : (len (rstrip a) ≤ len a)%nat.
Proof.
  induction a as [|c r IH]; [done|]. unfold len in *. simpl.
  destruct (rstrip r); [destruct (Ascii.eqb c sep)|]; simpl in *; lia.
Qed.

Lemma app_cons (x : ascii) (r b : string) :
  String x r +:+ b = String x (r +:+ b).
Proof. reflexivity. Qed.

Lemma len_app (a b : string) : len (a +:+ b) = (len a + len b)%nat.
Proof.
  unfold len. induction a as [|c r IH]; [done|].
  rewrite app_cons. simpl. by rewrite IH.
Qed.

Lemma app_assoc_str (a b c : string) : (a +:+ b) +:+ c = a +:+ (b +:+ c).
Proof.
  induction a as [|x r IH]; [done|]. by rewrite !app_cons, IH.
Qed.

(** The parent that [split] returns is an initial part of the path, and
    the name it returns holds no separator. *)
Lemma split_head_tail (p : string) :
  (∃ rest, p = (posixpath.split p).1 +:+ rest)
  ∧ sep_free (posixpath.split p).2 = true.
Proof.
  destruct (last_sep_decomp p) as [Hp | (a & s & -> & Hs)].
  - rewrite split_sep_free by done. split; [by exists p | done].
  - rewrite split_app by done. simpl. split; [|done].
    destruct (negb _ && negb _).
    + destruct (rstrip_suffix a) as [n Hn].
      exists (repeat_sep n +:+ String sep s).
      by rewrite <- app_assoc_str, <- Hn.
    + exists s. by rewrite app_assoc_str.
Qed.

Lemma prefix_app (a r : string) : String.prefix a (a +:+ r) = true.
Proof.
  induction a as [|c a IH]; [by destruct r|].
  rewrite app_cons. simpl. destruct (ascii_dec c c); [done | congruence].
Qed.

End split_facts.

(** ** The walk: what it can answer, when it answers, when it does not *)

Module router_facts.
Import pystr posixpath_facts split_facts walk_facts ForkingLocalHTTPServer.

Lemma app_empty_r (a : string) : a +:+ "" = a.
Proof. induction a as [|c r IH]; [done|]. by rewrite app_cons, IH. Qed.

Lemma prefix_inv (a p : string) :
  String.prefix a p = true → ∃ rest, p = a +:+ rest.
Proof.
  revert p. induction a as [|c a IH]; intros p; [by exists p|].
  destruct p as [|d p]; [done|]. simpl.
  destruct (ascii_dec c d) as [->|]; [|done].
  intros [rest ->]%IH. by exists rest.
Qed.

Lemma prefix_refl (p : string) : String.prefix p p = true.
Proof. rewrite <- (app_empty_r p) at 2. apply prefix_app. Qed.

Lemma prefix_of_head (a p : string) :
  String.prefix a (posixpath.split p).1 = true → String.prefix a p = true.
Proof.
  intros [r Hr]%prefix_inv.
  destruct (split_head_tail p) as [[rest Hp] _].
  rewrite Hp, Hr, app_assoc_str. apply prefix_app.
Qed.

Lemma prefix_isabs (a p : string) :
  a ≠ "" → String.prefix a p = true → posixpath.isabs a = posixpath.isabs p.
Proof.
  intros Hne [rest ->]%prefix_inv. by destruct a.
Qed.

Lemma select_empty fuel consumers st trail out :
  select fuel consumers st "" trail = Some out → out = not_found st.
Proof. destruct fuel; [done|]. by intros [= <-]. Qed.

(** Whatever the walk answers is "not found" or the call of a consumer
    that is registered under a non-empty initial part of the path; the
    names it has peeled off hold no separator. *)
Lemma select_sound reg st fuel : ∀ path trail out,
  select fuel (Some reg) st path trail = Some out →
  out = not_found st ∨ is_dispatch reg path trail st out.
Proof.
  induction fuel as [|fuel IH]; intros path trail out; [done|].
  cbn [select]. destruct (String.eqb_spec path "") as [->|Hne];
    [intros [= <-]; by left|].
  destruct (reg !! path) as [con|] eqn:Hreg.
  - intros Hout. right. exists path, con, []. repeat split; try done.
    + apply prefix_refl.
    + unfold dispatched. simpl. destruct (con_handle con _).
      by injection Hout as <-.
  - destruct (String.eqb_spec path "/") as [->|Hroot].
    + intros Hout%select_empty. by left.
    + destruct (posixpath.split path) as [head tail] eqn:Hsplit.
      intros [->|(prefix & con & tr & Hcon & Hpne & Hpre & Htr & ->)]%IH;
        [by left|].
      right. exists prefix, con, (tr ++ [tail])%list. repeat split; try done.
      * apply prefix_of_head. by rewrite Hsplit.
      * apply Forall_app. split; [done|]. apply Forall_singleton.
        destruct (split_head_tail path) as [_ Ht]. by rewrite Hsplit in Ht.
      * by rewrite <- app_assoc.
Qed.

(** *** Paths that start with exactly one separator *)

Lemma repeat_sep_second (c : ascii) (r : string) (n : nat) :
  Ascii.eqb c sep = false → String sep (String c r) ≠ repeat_sep n.
Proof.
  intros Hc. destruct n as [|[|n]]; simpl; try done.
  intros [= ->]. by rewrite Ascii.eqb_refl in Hc.
Qed.

Lemma rstrip_nonsep_head (c : ascii) (r : string) :
  Ascii.eqb c sep = false → ∃ r', rstrip (String c r) = String c r'.
Proof.
  intros Hc. simpl. destruct (rstrip r); rewrite ?Hc; by eexists.
Qed.

Lemma split_single_root (p : string) :
  single_root p = true → p ≠ "/" →
  single_root (posixpath.split p).1 = true
  ∧ (len (posixpath.split p).1 < len p)%nat.
Proof.
  intros Hp Hroot.
  destruct p as [|x [|c r]]; [done| |].
  { simpl in Hp. apply Ascii.eqb_eq in Hp as ->. done. }
  simpl in Hp. apply andb_true_iff in Hp as [Hx Hc].
  apply Ascii.eqb_eq in Hx as ->. apply negb_true_iff in Hc.
  destruct (last_sep_decomp (String sep (String c r)))
    as [Hfree | (a & s & Heq & Hs)]; [done|].
  rewrite Heq, split_app by done. cbn [fst].
  destruct a as [|x a].
  - (* the last separator is the leading one *)
    cbn. split; [done|]. rewrite <- Heq. unfold len. simpl. lia.
  - rewrite app_cons in Heq. injection Heq as <- Heq.
    destruct a as [|y a].
    { cbv [String.append] in Heq. injection Heq as -> _.
      by rewrite Ascii.eqb_refl in Hc. }
    rewrite app_cons in Heq. injection Heq as <- Heq.
    destruct (String.eqb_spec (String sep (String c a) +:+ String sep "") "")
      as [E|_]; [done|].
    destruct (String.eqb_spec (String sep (String c a) +:+ String sep "")
                (repeat_sep (len (String sep (String c a) +:+ String sep ""))))
      as [E|_].
    { rewrite !app_cons in E. by apply repeat_sep_second in E. }
    cbn [negb andb].
    destruct (rstrip_nonsep_head c a Hc) as [r' Hr'].
    split.
    + rewrite rstrip_cons by (by rewrite Hr'). rewrite Hr'. simpl.
      by rewrite Hc.
    + pose proof (rstrip_length (String sep (String c a))) as Hlen.
      rewrite len_app. unfold len in *. simpl in *. lia.
Qed.

(** On a path that starts with exactly one separator the walk ends
    within [len path + 1] turns of the loop. *)
Lemma select_total reg st fuel : ∀ path trail,
  single_root path = true → (len path < fuel)%nat →
  ∃ out, select fuel (Some reg) st path trail = Some out.
Proof.
  induction fuel as [|fuel IH]; intros path trail Hp Hfuel; [lia|].
  cbn [select]. destruct (String.eqb_spec path "") as [->|Hne]; [done|].
  destruct (reg !! path) as [con|].
  { destruct (con_handle con _). by eexists. }
  destruct (String.eqb_spec path "/") as [->|Hroot].
  - destruct fuel as [|fuel]; [unfold len in Hfuel; simpl in Hfuel; lia|].
    by eexists.
  - destruct (split_single_root path Hp Hroot) as [Hh Hlen].
    destruct (posixpath.split path) as [head tail]. simpl in *.
    apply IH; [done | lia].
Qed.

(** *** Paths that start with two separators *)

Lemma repeat_sep_snoc (n : nat) :
  repeat_sep n +:+ String sep "" = repeat_sep (S n).
Proof.
  induction n as [|n IH]; [done|].
  change (repeat_sep (S n)) with (String sep (repeat_sep n)).
  by rewrite app_cons, IH.
Qed.

Lemma len_repeat_sep (n : nat) : len (repeat_sep n) = n.
Proof. unfold len. induction n as [|n IH]; simpl; [done|]. by rewrite IH. Qed.

Lemma split_keeps_double_root (p : string) :
  double_root p = true → double_root (posixpath.split p).1 = true.
Proof.
  intros Hp. destruct p as [|x [|y r]]; try done.
  simpl in Hp. apply andb_true_iff in Hp as [Hx Hy].
  apply Ascii.eqb_eq in Hx as ->. apply Ascii.eqb_eq in Hy as ->.
  destruct (last_sep_decomp (String sep (String sep r)))
    as [Hfree | (a & s & Heq & Hs)]; [done|].
  rewrite Heq, split_app by done. cbn [fst].
  destruct a as [|x a].
  { cbv [String.append] in Heq. injection Heq as <-. done. }
  rewrite app_cons in Heq. injection Heq as <- Heq.
  destruct a as [|y a]; [done|].
  rewrite app_cons in Heq. injection Heq as <- Heq.
  destruct (negb _ && negb _) eqn:Hcond; [|done].
  apply andb_true_iff in Hcond as [_ Hall]. apply negb_true_iff in Hall.
  apply String.eqb_neq in Hall.
  assert (Hne : rstrip a ≠ "").
  { intros Hempty%rstrip_empty. apply Hall.
    assert (E : String sep (String sep a) +:+ String sep ""
                = repeat_sep (S (S (S (len a))))).
    { rewrite !app_cons. cbn [repeat_sep]. do 2 f_equal.
      change (String sep (repeat_sep (len a))) with (repeat_sep (S (len a))).
      by rewrite <- repeat_sep_snoc, <- Hempty. }
    by rewrite E, len_repeat_sep. }
  rewrite rstrip_cons.
  - by rewrite rstrip_cons.
  - by rewrite rstrip_cons.
Qed.

(** When no key of the registry starts with two separators, the walk
    from such a path goes on for ever. *)
Lemma select_double_root_diverges reg st fuel : ∀ path trail,
  (∀ key, double_root key = true → reg !! key = None) →
  double_root path = true →
  select fuel (Some reg) st path trail = None.
Proof.
  induction fuel as [|fuel IH]; intros path trail Hreg Hp; [done|].
  cbn [select].
  destruct (String.eqb_spec path "") as [->|_]; [done|].
  rewrite (Hreg path Hp).
  destruct (String.eqb_spec path "/") as [->|_]; [done|].
  pose proof (split_keeps_double_root path Hp) as Hh.
  destruct (posixpath.split path) as [head tail]. by apply IH.
Qed.

End router_facts.

(** ** Extra statements about the pipeline *)

Lemma run_authers_app (l1 l2 : list (string * Authenticator)) : ∀ st,
  run_authers (l1 ++ l2) st
  = match run_authers l1 st with
    | (st1, Some e) => (st1, Some e)
    | (st1, None) => run_authers l2 st1
    end.
Proof.
  induction l1 as [|[name a] l1 IH]; intros st; [done|].
  simpl. destruct (auth_handle a (st_request st)) as [req' [e|]]; [done|].
  apply IH.
Qed.

(** X1.  An authenticated request whose path starts with exactly one
    separator is always answered: the walk ends within [len path + 1]
    turns of the loop. *)
Theorem single_root_path_answered (self : ForkingLocalHTTPServer.t)
    (authers : list (string * Authenticator)) (reg : gmap string Consumer)
    (st : pstate) (fuel : nat) (path : string) :
  cfg_authenticators (config self) = Some authers →
  Forall (λ na, returns_normally na.2) authers →
  valid_auth (st_request (after_auth self st)) = true →
  cfg_consumers (config self) = Some reg →
  st_request (after_auth self st) !! "path" = Some (VStr path) →
  single_root path = true →
  (pystr.len path < fuel)%nat →
  ∃ out, pipeline fuel self st = Some out.
Proof.
  intros Hcfg Hn Hv Hreg Hpath Hp Hfuel.
  rewrite (gate_facts.pipeline_gate _ _ _ _ Hcfg Hn), Hv.
  unfold select_consumer. rewrite Hpath, Hreg. simpl default. cbv iota.
  assert (posixpath.isabs path = true) as ->.
  { destruct path as [|c [|c' r]]; simpl in *; [done..|].
    by apply andb_true_iff in Hp as [-> _]. }
  by apply router_facts.select_total.
Qed.

Lemma single_root_path_answered_witness :
  ∃ out, pipeline 12 sample.secrets (start (sample.get "/other/app1")) = Some out.
Proof.
  refine (single_root_path_answered sample.secrets [("first", sample.grant)]
            (list_to_map [("/secrets", sample.con "A")])
            (start (sample.get "/other/app1")) 12 "/other/app1"
            _ _ _ _ _ _ _); try reflexivity.
  - repeat constructor.
  - vm_compute. lia.
Defined.

(** X2.  An authenticated request whose path starts with two separators
    is never answered when no key of the registry starts with two
    separators: the loop of the walk does not end, whatever the number of
    turns. *)
Theorem double_root_path_diverges (self : ForkingLocalHTTPServer.t)
    (authers : list (string * Authenticator)) (reg : gmap string Consumer)
    (st : pstate) (fuel : nat) (path : string) :
  cfg_authenticators (config self) = Some authers →
  Forall (λ na, returns_normally na.2) authers →
  valid_auth (st_request (after_auth self st)) = true →
  cfg_consumers (config self) = Some reg →
  st_request (after_auth self st) !! "path" = Some (VStr path) →
  double_root path = true →
  (∀ key, double_root key = true → reg !! key = None) →
  pipeline fuel self st = None.
Proof.
  intros Hcfg Hn Hv Hreg Hpath Hp Hkeys.
  rewrite (gate_facts.pipeline_gate _ _ _ _ Hcfg Hn), Hv.
  unfold select_consumer. rewrite Hpath, Hreg. simpl default. cbv iota.
  assert (posixpath.isabs path = true) as ->.
  { destruct path as [|c [|c' r]]; simpl in *; [done..|].
    by apply andb_true_iff in Hp as [-> _]. }
  by apply router_facts.select_double_root_diverges.
Qed.

Lemma double_root_path_diverges_witness :
  pipeline 1000 sample.secrets (start (sample.get "//secrets/app1")) = None.
Proof.
  refine (double_root_path_diverges sample.secrets [("first", sample.grant)]
            (list_to_map [("/secrets", sample.con "A")])
            (start (sample.get "//secrets/app1")) 1000 "//secrets/app1"
            _ _ _ _ _ _ _); try reflexivity.
  - repeat constructor.
  - intros key Hkey.
    destruct (decide (key = "/secrets")) as [->|Hne]; [done|].
    change (list_to_map [("/secrets", sample.con "A")])
      with (<["/secrets" := sample.con "A"]> (∅ : gmap string Consumer)).
    by rewrite lookup_insert_ne.
Defined.

(** X3.  Every answer the pipeline gives to an authenticated request is
    one of three: 400, when the path is not absolute; 404, with the request
    as the gate left it; or the outcome of calling a consumer that is
    registered under an absolute initial part of the request path, with a
    trail whose elements hold no separator and a request that differs from
    the one the gate left at most under the key [trail]. *)
Theorem pipeline_answers (self : ForkingLocalHTTPServer.t)
    (authers : list (string * Authenticator)) (reg : gmap string Consumer)
    (st : pstate) (fuel : nat) (path : string) (out : pstate * result value) :
  cfg_authenticators (config self) = Some authers →
  Forall (λ na, returns_normally na.2) authers →
  valid_auth (st_request (after_auth self st)) = true →
  cfg_consumers (config self) = Some reg →
  st_request (after_auth self st) !! "path" = Some (VStr path) →
  pipeline fuel self st = Some out →
  (posixpath.isabs path = false
   ∧ out = (after_auth self st, Raise (HTTPError 400 None)))
  ∨ (posixpath.isabs path = true ∧ out = not_found (after_auth self st))
  ∨ (∃ prefix con trail,
       reg !! prefix = Some con
       ∧ posixpath.isabs prefix = true
       ∧ String.prefix prefix path = true
       ∧ Forall (λ s, pystr.sep_free s = true) trail
       ∧ out = dispatched con prefix trail (after_auth self st)
       ∧ ∀ key, key ≠ "trail" →
                attach_trail trail (st_request (after_auth self st)) !! key
                = st_request (after_auth self st) !! key).
Proof.
  intros Hcfg Hn Hv Hreg Hpath.
  rewrite (gate_facts.pipeline_gate _ _ _ _ Hcfg Hn), Hv.
  unfold select_consumer. rewrite Hpath, Hreg. simpl default. cbv iota.
  destruct (posixpath.isabs path) eqn:Habs; simpl negb; cbv iota.
  - intros [->|(prefix & con & tr & Hcon & Hpne & Hpre & Htr & ->)]
      %router_facts.select_sound; [right; by left|].
    right. right. exists prefix, con, tr. rewrite app_nil_r.
    repeat split; try done.
    + by rewrite (router_facts.prefix_isabs prefix path).
    + intros key Hkey. unfold attach_trail.
      destruct (negb _); [|done]. by rewrite lookup_insert_ne.
  - intros [= <-]. by left.
Qed.

Lemma pipeline_answers_witness :
  ∃ prefix con trail,
    (list_to_map [("/secrets", sample.con "A")] : gmap string Consumer) !! prefix
    = Some con
    ∧ String.prefix prefix "/secrets/app1/key1" = true
    ∧ dispatched (sample.con "A") "/secrets" ["app1"; "key1"]
        (after_auth sample.secrets (start (sample.get "/secrets/app1/key1")))
      = dispatched con prefix trail
          (after_auth sample.secrets (start (sample.get "/secrets/app1/key1"))).
Proof.
  destruct (pipeline_answers sample.secrets [("first", sample.grant)]
              (list_to_map [("/secrets", sample.con "A")])
              (start (sample.get "/secrets/app1/key1")) 3 "/secrets/app1/key1"
              (dispatched (sample.con "A") "/secrets" ["app1"; "key1"]
                 (after_auth sample.secrets
                    (start (sample.get "/secrets/app1/key1")))))
    as [[Habs _] | [[_ Hnf] | (prefix & con & trail & Hcon & _ & Hpre & _ & Hout & _)]];
    try reflexivity.
  - repeat constructor.
  - discriminate Habs.
  - discriminate Hnf.
  - by exists prefix, con, trail.
Defined.

(** X4.  An authenticator that raises ends the pipeline with its
    exception: the authenticators registered after it are not called, no
    consumer is called, and the request stays as the failing authenticator
    left it, also when an earlier one had granted access. *)
Theorem failing_authenticator_stops_pipeline (self : ForkingLocalHTTPServer.t)
    (before after : list (string * Authenticator)) (name : string)
    (a : Authenticator) (st : pstate) (fuel : nat) (e : exn) :
  cfg_authenticators (config self) = Some (before ++ (name, a) :: after) →
  Forall (λ na, returns_normally na.2) before →
  (auth_handle a (st_request (run_authers before st).1)).2 = Some e →
  pipeline fuel self st
  = Some ({| st_request := (auth_handle a (st_request (run_authers before st).1)).1;
             st_calls := st_calls st ++ (CallAuth <$> before.*1) ++ [CallAuth name] |},
          Raise e).
Proof.
  intros Hcfg Hn Hraise. unfold pipeline. rewrite Hcfg, run_authers_app.
  destruct (gate_facts.run_authers_normal before st Hn) as [Hr Hcalls].
  destruct (run_authers before st) as [st1 r]. simpl in *. subst r.
  destruct (auth_handle a (st_request st1)) as [req' r]. simpl in *. subst r.
  by rewrite Hcalls, <- app_assoc.
Qed.

Lemma failing_authenticator_stops_pipeline_witness :
  pipeline 3
    (sample.server (Some [("first", sample.grant); ("broken", sample.faulty);
                          ("last", sample.idle)])
       [("/secrets", sample.con "A")])
    (start (sample.get "/secrets"))
  = Some ({| st_request := <["valid_auth" := VBool true]> (sample.get "/secrets");
             st_calls := [CallAuth "first"; CallAuth "broken"] |},
          Raise (PluginFault "backend down")).
Proof.
  refine (failing_authenticator_stops_pipeline
            (sample.server (Some [("first", sample.grant); ("broken", sample.faulty);
                                  ("last", sample.idle)])
               [("/secrets", sample.con "A")])
            [("first", sample.grant)] [("last", sample.idle)] "broken"
            sample.faulty (start (sample.get "/secrets")) 3
            (PluginFault "backend down") _ _ _); try reflexivity.
  repeat constructor.
Defined.

(** ** Extra statements about the connection handler *)

Module handler_facts.
Import LocalHTTPRequestHandler.


(** The steps of [handle_one_request] up to the body, once the request
    line and the headers have been parsed. *)
Lemma handle_parsed base urlparse parse_qs self h fuel :
  parsed_as base urlparse parse_qs self h →
  handle_one_request base urlparse parse_qs fuel self
  = match parse_body h with
    | (h', Raise (HTTPError code mesg)) =>
        Some (emit [SendError code mesg; Flush] h', Return tt)
    | (h', Raise SocketTimeout) =>
        Some (set_close_connection true (emit [LogError "Request timed out"] h'),
              Return tt)
    | (h', Raise e) => Some (h', Raise e)
    | (h', Return _) =>
        match pipeline fuel (server h') (start (build_request h')) with
        | None => None
        | Some (_, r) =>
            match
              match r with
              | Return VNone => Raise (HTTPError_new (Some 500) None)
              | _ => r
              end
            with
            | Raise (HTTPError code mesg) =>
                Some (emit [SendError code mesg; Flush] h', Return tt)
            | Raise SocketTimeout =>
                Some (set_close_connection true
                        (emit [LogError "Request timed out"] h'), Return tt)
            | Raise _ =>
                Some (emit [LogError "Handler failed"; LogError "Traceback";
                            SendError 500 None; Flush] h', Return tt)
            | Return response => Some (write_response response h')
            end
        end
    end.
Proof.
  intros (line & rest & Hline & Hne & Hlen & Hparse).
  unfold handle_one_request. rewrite Hline.
  destruct line as [|b line']; [done|].
  cbn [List.length Nat.eqb].
  destruct (Z.gtb_spec (Z.of_nat (S (List.length line'))) 65536);
    [simpl in Hlen; lia|].
  rewrite Hparse. cbn [negb]. done.
Qed.

End handler_facts.



(** X6.  When the peer closes the connection without sending anything,
    the handler marks the connection for closing and sends nothing. *)
Theorem empty_stream_closes
    (BaseHTTPRequestHandler_parse_request :
       LocalHTTPRequestHandler.t → LocalHTTPRequestHandler.t * bool)
    (urlparse : string → url_t) (parse_qs : string → value)
    (self : LocalHTTPRequestHandler.t) (fuel : nat) :
  rfile self = [] →
  ∃ h, handle_one_request BaseHTTPRequestHandler_parse_request urlparse
         parse_qs fuel self = Some (h, Return tt)
       ∧ close_connection h = true
       ∧ wfile h = wfile self.
Proof.
  intros Hr. unfold handle_one_request. rewrite Hr. cbn. by eexists.
Qed.

Lemma empty_stream_closes_witness :
  ∃ h, handle_one_request (sample.base_parse []) sample.urlparse
         sample.parse_qs 0 (sample.handler []) = Some (h, Return tt)
       ∧ close_connection h = true
       ∧ wfile h = [].
Proof.
  exact (empty_stream_closes (sample.base_parse []) sample.urlparse
           sample.parse_qs (sample.handler []) 0 eq_refl).
Defined.







(** X10.  A consumer that returns something that is neither [None] nor a
    mapping (a text, a number, a list) makes [handle_one_request] fail:
    [response.get] raises [AttributeError] outside every [try], so the
    exception leaves the method and no status line, header or body has
    been sent. *)
Theorem non_mapping_response_escapes
    (BaseHTTPRequestHandler_parse_request :
       LocalHTTPRequestHandler.t → LocalHTTPRequestHandler.t * bool)
    (urlparse : string → url_t) (parse_qs : string → value)
    (self h h' : LocalHTTPRequestHandler.t) (fuel : nat)
    (st : pstate) (response : value) :
  parsed_as BaseHTTPRequestHandler_parse_request urlparse parse_qs self h →
  parse_body h = (h', Return tt) →
  pipeline fuel (server h') (start (build_request h')) = Some (st, Return response) →
  match response with VNone | VDict _ => False | _ => True end →
  handle_one_request BaseHTTPRequestHandler_parse_request urlparse parse_qs
    fuel self
  = Some (h', Raise AttributeError).
Proof.
  intros Hparsed Hbody Hpipe Hresp.
  rewrite (handler_facts.handle_parsed _ _ _ _ _ _ Hparsed), Hbody, Hpipe.
  by destruct response.
Qed.

Lemma non_mapping_response_escapes_witness :
  snd <$> handle_one_request (sample.base_parse []) sample.urlparse
            sample.parse_qs 4
            (sample_more.handler_of sample_text.texting (sample.request_bytes []))
  = Some (Raise AttributeError).
Proof.
  rewrite (non_mapping_response_escapes (sample.base_parse []) sample.urlparse
             sample.parse_qs
             (sample_more.handler_of sample_text.texting (sample.request_bytes []))
             (sample_more.after_parse sample_text.texting [] [])
             (sample_more.after_parse sample_text.texting [] []) 4
             {| st_request :=
                  <["valid_auth" := VBool true]>
                    (build_request (sample_more.after_parse sample_text.texting [] []));
                st_calls :=
                  [CallAuth "first";
                   CallConsumer "/secrets"
                     (<["valid_auth" := VBool true]>
                        (build_request
                           (sample_more.after_parse sample_text.texting [] [])))] |}
             (VStr "ok")).
  - reflexivity.
  - eexists _, _. repeat split; try reflexivity.
    + discriminate.
    + vm_compute. discriminate.
  - reflexivity.
  - reflexivity.
  - exact I.
Defined.



(** X12.  The banner: for a server built by [__init__], every handler's
    [version_string] is the configured [server_string] when the
    configuration has one and ["Custodia/0.1"] otherwise. *)
Theorem banner_of_constructed_server (cfg : Config)
    (srv : ForkingLocalHTTPServer.t) (h : LocalHTTPRequestHandler.t) :
  __init__ (Return tt) cfg = Return srv →
  server h = srv →
  version_string h = default "Custodia/0.1" (cfg_server_string cfg)
  ∧ config srv = cfg.
Proof.
  unfold __init__, version_string. intros Hinit ->.
  destruct (cfg_consumers cfg); [|done].
  injection Hinit as <-. by destruct (cfg_server_string cfg).
Qed.

Lemma banner_of_constructed_server_witness :
  version_string
    (sample_more.handler_of
       {| config := {| cfg_consumers := Some ∅; cfg_authenticators := None;
                       cfg_server_string := Some "Vault/2" |};
          server_string := "Vault/2" |} [])
  = "Vault/2".
Proof.
  exact (proj1 (banner_of_constructed_server
                  {| cfg_consumers := Some ∅; cfg_authenticators := None;
                     cfg_server_string := Some "Vault/2" |}
                  _ (sample_more.handler_of _ []) eq_refl eq_refl)).
Defined.

(** ** Extra statements about [LocalHTTPServer] *)

(** X13.  An address that does not start with the separator is rejected
    with [ValueError] before the file system is looked at: nothing is
    removed and no socket is bound.  (The empty address fails earlier,
    with the [IndexError] of [address[0]].) *)
Theorem relative_address_rejected (os_path_exists : string → bool)
    (os_remove : string → option string)
    (UnixStreamServer_init : string → result unit)
    (address : string) (cfg : Config) :
  posixpath.isabs address = false →
  LocalHTTPServer.__init__ os_path_exists os_remove UnixStreamServer_init
    address cfg
  = ([], inl (if String.eqb address ""
              then LocalHTTPServer.IndexError
              else LocalHTTPServer.Inner
                     (ValueError "Must use absolute unix socket name"))).
Proof.
  unfold LocalHTTPServer.__init__, posixpath.isabs, pystr.startswith_sep.
  destruct address as [|c r]; [done|]. intros Hc.
  change pystr.sep with "/"%char in Hc. by rewrite Hc.
Qed.

Lemma relative_address_rejected_witness :
  LocalHTTPServer.__init__ (λ _, true) (λ _, None) (λ _, Return tt)
    "custodia.sock"
    {| cfg_consumers := Some ∅; cfg_authenticators := None;
       cfg_server_string := None |}
  = ([], inl (LocalHTTPServer.Inner
                (ValueError "Must use absolute unix socket name"))).
Proof.
  exact (relative_address_rejected (λ _, true) (λ _, None) (λ _, Return tt)
           "custodia.sock" _ eq_refl).
Defined.

(** X14.  With an absolute address at which something exists and can be
    removed, the constructor removes it and binds the socket before the
    configuration is looked at: a configuration without [consumers] makes
    the construction fail with [ValueError] only after the removal and the
    bind have happened. *)
Theorem stale_file_removed_before_config_check (os_path_exists : string → bool)
    (os_remove : string → option string)
    (UnixStreamServer_init : string → result unit)
    (address : string) (cfg : Config) :
  posixpath.isabs address = true →
  os_path_exists address = true →
  os_remove address = None →
  UnixStreamServer_init address = Return tt →
  LocalHTTPServer.__init__ os_path_exists os_remove UnixStreamServer_init
    address cfg
  = ([LocalHTTPServer.Exists address; LocalHTTPServer.Remove address;
      LocalHTTPServer.Bind address],
     match ForkingLocalHTTPServer.__init__ (Return tt) cfg with
     | Return httpd => inr httpd
     | Raise e => inl (LocalHTTPServer.Inner e)
     end)
  ∧ (cfg_consumers cfg = None →
     ForkingLocalHTTPServer.__init__ (Return tt) cfg
     = Raise (ValueError "Configuration does not provide any consumer")).
Proof.
  intros Habs Hex Hrm Hbind. split.
  - unfold LocalHTTPServer.__init__.
    destruct address as [|c r]; [done|].
    unfold posixpath.isabs, pystr.startswith_sep in Habs.
    change pystr.sep with "/"%char in Habs. rewrite Habs. cbn [negb].
    rewrite Hex, Hrm, Hbind.
    by destruct (ForkingLocalHTTPServer.__init__ (Return tt) cfg).
  - intros Hnone. unfold ForkingLocalHTTPServer.__init__. by rewrite Hnone.
Qed.

Lemma stale_file_removed_before_config_check_witness :
  LocalHTTPServer.__init__ (λ _, true) (λ _, None) (λ _, Return tt)
    "/run/custodia.sock"
    {| cfg_consumers := None; cfg_authenticators := None;
       cfg_server_string := None |}
  = ([LocalHTTPServer.Exists "/run/custodia.sock";
      LocalHTTPServer.Remove "/run/custodia.sock";
      LocalHTTPServer.Bind "/run/custodia.sock"],
     inl (LocalHTTPServer.Inner
            (ValueError "Configuration does not provide any consumer"))).
Proof.
  exact (proj1 (stale_file_removed_before_config_check (λ _, true) (λ _, None)
                  (λ _, Return tt) "/run/custodia.sock"
                  {| cfg_consumers := None; cfg_authenticators := None;
                     cfg_server_string := None |}
                  eq_refl eq_refl eq_refl eq_refl)).
Defined.

(** ** Extra statements about [BarbicanStore] *)

Module store_facts.
Import pystr posixpath_facts.

Lemma split_nonempty (s : string) : pysplit.split s ≠ [].
Proof.
  destruct s as [|c r]; [done|]. simpl.
  destruct (Ascii.eqb c sep); [done|]. by destruct (pysplit.split r).
Qed.

Lemma components_sep_free (s : string) :
  sep_free s = true → pysplit.split s = [s].
Proof.
  induction s as [|c r IH]; [done|]. simpl.
  intros [Hc Hr]%andb_true_iff. apply negb_true_iff in Hc.
  by rewrite Hc, IH.
Qed.

Lemma split_child (a s : string) :
  pysplit.split (child a s) = (pysplit.split a ++ pysplit.split s)%list.
Proof.
  unfold child. induction a as [|c r IH].
  - done.
  - rewrite split_facts.app_cons. simpl. rewrite IH.
    destruct (Ascii.eqb c sep); [done|].
    pose proof (split_nonempty r). by destruct (pysplit.split r).
Qed.

(** The last two components of [p/c/k]. *)
Lemma last_two (p c k : string) :
  sep_free c = true → sep_free k = true →
  pysplit.last1 (pysplit.split (child (child p c) k)) = Some k
  ∧ pysplit.last2 (pysplit.split (child (child p c) k)) = Some c.
Proof.
  intros Hc Hk. rewrite !split_child.
  rewrite (components_sep_free c), (components_sep_free k) by done.
  unfold pysplit.last1, pysplit.last2. split.
  - by rewrite last_snoc.
  - by rewrite !rev_app_distr.
Qed.

(** A key without separator has one component only. *)
Lemma last2_sep_free (key : string) :
  sep_free key = true → pysplit.last2 (pysplit.split key) = None.
Proof. intros Hk. by rewrite components_sep_free. Qed.

Lemma find_secret_absent sess key_name refs :
  key_name ∉ refs.*1 →
  BarbicanStore.find_secret sess key_name refs = ([], BarbicanStore.Ok VNone).
Proof.
  induction refs as [|[name ref] rest IH]; [done|]. simpl.
  intros Hnot. apply not_elem_of_cons in Hnot as [Hne Hrest].
  destruct (String.eqb_spec name key_name); [congruence|]. by apply IH.
Qed.

Lemma find_secret_first sess key_name ref before after :
  key_name ∉ before.*1 →
  BarbicanStore.find_secret sess key_name (before ++ (key_name, ref) :: after)
  = match BarbicanStore.secrets_get sess ref with
    | BarbicanStore.Ok secret =>
        ([BarbicanStore.SecretsGet ref], BarbicanStore.payload secret)
    | BarbicanStore.Fail _ =>
        ([BarbicanStore.SecretsGet ref],
         BarbicanStore.Fail (BarbicanStore.NameError "href"))
    end.
Proof.
  induction before as [|[name r] rest IH]; simpl.
  - intros _. rewrite String.eqb_refl. unfold BarbicanStore._get_secret.
    by destruct (BarbicanStore.secrets_get sess ref).
  - intros Hnot. apply not_elem_of_cons in Hnot as [Hne Hrest].
    destruct (String.eqb_spec name key_name); [congruence|]. by apply IH.
Qed.

End store_facts.

(** X15.  [get] looks only at the last two components of the key: the
    second to last names the container, the last names the secret, and
    whatever comes before them is ignored.  Two keys that differ only
    before their last two components are answered alike. *)
Theorem get_ignores_key_prefix
    (client_Client : option BarbicanStore.Session
                     → BarbicanStore.outcome BarbicanStore.Client)
    (self : BarbicanStore.t) (p p' c k : string) :
  pystr.sep_free c = true → pystr.sep_free k = true →
  BarbicanStore.get client_Client self (child (child p c) k)
  = BarbicanStore.get client_Client self (child (child p' c) k).
Proof.
  intros Hc Hk. unfold BarbicanStore.get.
  destruct (store_facts.last_two p c k Hc Hk) as [-> ->].
  by destruct (store_facts.last_two p' c k Hc Hk) as [-> ->].
Qed.

Lemma get_ignores_key_prefix_witness :
  BarbicanStore.get (sample_store.factory true) BarbicanStore.__init__
    "tenant1/c1/k1"
  = BarbicanStore.get (sample_store.factory true) BarbicanStore.__init__
      "tenant2/other/c1/k1".
Proof.
  exact (get_ignores_key_prefix (sample_store.factory true)
           BarbicanStore.__init__ "tenant1" "tenant2/other" "c1" "k1"
           eq_refl eq_refl).
Defined.

(** X16.  A key without separator has no second to last component:
    [set] fails with [IndexError] after nothing but its debug log, before
    a client is created; [get] and [span] fail with [IndexError] right
    after creating the client (or with the client's own error), without
    asking Barbican for anything. *)
Theorem key_without_separator
    (client_Client : option BarbicanStore.Session
                     → BarbicanStore.outcome BarbicanStore.Client)
    (self : BarbicanStore.t) (key : string) (v : value) (replace : bool) :
  pystr.sep_free key = true →
  BarbicanStore.set client_Client self key v replace
  = ([BarbicanStore.LogDebug "Setting key %s to value %s (replace=%s)"
        [VStr key; v; VBool replace]],
     BarbicanStore.Fail BarbicanStore.IndexError)
  ∧ BarbicanStore.get client_Client self key
    = ([BarbicanStore.NewClient],
       BarbicanStore.Fail
         match client_Client (BarbicanStore.session self) with
         | BarbicanStore.Fail e => e
         | BarbicanStore.Ok _ => BarbicanStore.IndexError
         end)
  ∧ BarbicanStore.span client_Client self key
    = ([BarbicanStore.NewClient],
       BarbicanStore.Fail
         match client_Client (BarbicanStore.session self) with
         | BarbicanStore.Fail e => e
         | BarbicanStore.Ok _ => BarbicanStore.IndexError
         end).
Proof.
  intros Hk. pose proof (store_facts.last2_sep_free key Hk) as H2.
  unfold BarbicanStore.set, BarbicanStore.get, BarbicanStore.span.
  rewrite H2, (walk_facts.sep_free_endswith key Hk).
  repeat split; try done.
  - destruct (client_Client _); [|done].
    by destruct (pysplit.last1 (pysplit.split key)).
  - by destruct (client_Client _).
Qed.

Lemma key_without_separator_witness :
  BarbicanStore.get (sample_store.factory true) BarbicanStore.__init__ "k1"
  = ([BarbicanStore.NewClient], BarbicanStore.Fail BarbicanStore.IndexError).
Proof.
  exact (proj1 (proj2 (key_without_separator (sample_store.factory true)
                         BarbicanStore.__init__ "k1" VNone false eq_refl))).
Defined.

(** X17.  When fetching the container fails, for whatever reason, [get]
    logs the failure and raises [CSStoreError]; no secret is asked for. *)
Theorem get_container_failure
    (client_Client : option BarbicanStore.Session
                     → BarbicanStore.outcome BarbicanStore.Client)
    (self : BarbicanStore.t) (sess : BarbicanStore.Client)
    (p c k : string) (e : BarbicanStore.error) :
  pystr.sep_free c = true → pystr.sep_free k = true →
  client_Client (BarbicanStore.session self) = BarbicanStore.Ok sess →
  BarbicanStore.containers_get sess
    (BarbicanStore.BARBICAN_URL_format "containers" c) = BarbicanStore.Fail e →
  BarbicanStore.get client_Client self (child (child p c) k)
  = ([BarbicanStore.NewClient;
      BarbicanStore.ContainersGet (BarbicanStore.BARBICAN_URL_format "containers" c);
      BarbicanStore.LogException "Error fetching container %s"
        [VStr (BarbicanStore.BARBICAN_URL_format "containers" c)]],
     BarbicanStore.Fail
       (BarbicanStore.CSStoreError "Error occurred while trying to get container")).
Proof.
  intros Hc Hk Hclient Hget. unfold BarbicanStore.get.
  destruct (store_facts.last_two p c k Hc Hk) as [-> ->].
  rewrite Hclient. unfold BarbicanStore._get_container. by rewrite Hget.
Qed.

Lemma get_container_failure_witness :
  (BarbicanStore.get (sample_store.factory true) BarbicanStore.__init__
     "tenant1/c9/k1").2
  = BarbicanStore.Fail
      (BarbicanStore.CSStoreError "Error occurred while trying to get container").
Proof.
  exact (f_equal snd (get_container_failure (sample_store.factory true)
                        BarbicanStore.__init__ (sample_store.client true)
                        "tenant1" "c9" "k1" (BarbicanStore.ClientError "404")
                        eq_refl eq_refl eq_refl eq_refl)).
Defined.

(** X18.  When the container holds no secret under the name asked for,
    [get] returns [None] and asks for no secret. *)
Theorem get_absent_name
    (client_Client : option BarbicanStore.Session
                     → BarbicanStore.outcome BarbicanStore.Client)
    (self : BarbicanStore.t) (sess : BarbicanStore.Client)
    (container : BarbicanStore.Container) (p c k : string) :
  pystr.sep_free c = true → pystr.sep_free k = true →
  client_Client (BarbicanStore.session self) = BarbicanStore.Ok sess →
  BarbicanStore.containers_get sess
    (BarbicanStore.BARBICAN_URL_format "containers" c)
  = BarbicanStore.Ok container →
  k ∉ (BarbicanStore.secret_refs container).*1 →
  BarbicanStore.get client_Client self (child (child p c) k)
  = ([BarbicanStore.NewClient;
      BarbicanStore.ContainersGet (BarbicanStore.BARBICAN_URL_format "containers" c)],
     BarbicanStore.Ok VNone).
Proof.
  intros Hc Hk Hclient Hget Hnot. unfold BarbicanStore.get.
  destruct (store_facts.last_two p c k Hc Hk) as [-> ->].
  rewrite Hclient. unfold BarbicanStore._get_container. rewrite Hget.
  by rewrite store_facts.find_secret_absent.
Qed.

Lemma get_absent_name_witness :
  BarbicanStore.get (sample_store.factory true) BarbicanStore.__init__
    "tenant1/c1/k7"
  = ([BarbicanStore.NewClient;
      BarbicanStore.ContainersGet "http://controller:9311/v1/containers/c1"],
     BarbicanStore.Ok VNone).
Proof.
  refine (get_absent_name (sample_store.factory true) BarbicanStore.__init__
            (sample_store.client true)
            {| BarbicanStore.secret_refs := [("k0", "ref0"); ("k1", "ref1")] |}
            "tenant1" "c1" "k7" eq_refl eq_refl eq_refl eq_refl _).
  simpl. intros Hin. repeat (apply elem_of_cons in Hin as [Hin|Hin]; [done|]).
  by apply elem_of_nil in Hin.
Defined.

(** X19.  When the container holds a secret under the name asked for,
    [get] asks Barbican for the first such reference and returns its
    payload (or the error of reading it).  When asking for the secret
    fails, [get] raises [NameError], not [CSStoreError]: the handler of
    the failure names a variable, [href], that is not bound there. *)
Theorem get_first_match
    (client_Client : option BarbicanStore.Session
                     → BarbicanStore.outcome BarbicanStore.Client)
    (self : BarbicanStore.t) (sess : BarbicanStore.Client)
    (container : BarbicanStore.Container) (p c k ref : string)
    (before after : list (string * string)) :
  pystr.sep_free c = true → pystr.sep_free k = true →
  client_Client (BarbicanStore.session self) = BarbicanStore.Ok sess →
  BarbicanStore.containers_get sess
    (BarbicanStore.BARBICAN_URL_format "containers" c)
  = BarbicanStore.Ok container →
  BarbicanStore.secret_refs container = (before ++ (k, ref) :: after)%list →
  k ∉ before.*1 →
  BarbicanStore.get client_Client self (child (child p c) k)
  = ([BarbicanStore.NewClient;
      BarbicanStore.ContainersGet (BarbicanStore.BARBICAN_URL_format "containers" c);
      BarbicanStore.SecretsGet ref],
     match BarbicanStore.secrets_get sess ref with
     | BarbicanStore.Ok secret => BarbicanStore.payload secret
     | BarbicanStore.Fail _ => BarbicanStore.Fail (BarbicanStore.NameError "href")
     end).
Proof.
  intros Hc Hk Hclient Hget Hrefs Hnot. unfold BarbicanStore.get.
  destruct (store_facts.last_two p c k Hc Hk) as [-> ->].
  rewrite Hclient. unfold BarbicanStore._get_container. rewrite Hget, Hrefs.
  rewrite store_facts.find_secret_first by done.
  by destruct (BarbicanStore.secrets_get sess ref).
Qed.

Lemma get_first_match_witness :
  (BarbicanStore.get (sample_store.factory false) BarbicanStore.__init__
     "tenant1/c1/k1").2
  = BarbicanStore.Fail (BarbicanStore.NameError "href").
Proof.
  refine (f_equal snd
            (get_first_match (sample_store.factory false) BarbicanStore.__init__
               (sample_store.client false)
               {| BarbicanStore.secret_refs := [("k0", "ref0"); ("k1", "ref1")] |}
               "tenant1" "c1" "k1" "ref1" [("k0", "ref0")] []
               eq_refl eq_refl eq_refl eq_refl eq_refl _)).
  simpl. intros Hin. apply elem_of_cons in Hin as [Hin|Hin]; [done|].
  by apply elem_of_nil in Hin.
Defined.

(** X20.  A store as [__init__] leaves it ([session] is [None]) can never
    complete a [set].  With a well-formed key [p/c/k], when the client is
    created and the secret is created and stored, [set] then fails with
    [AttributeError] at [self.session.post]: the secret is in Barbican but
    has not been added to its container. *)
Theorem set_without_session
    (client_Client : option BarbicanStore.Session
                     → BarbicanStore.outcome BarbicanStore.Client)
    (self : BarbicanStore.t) (key : string) (v : value) (replace : bool) :
  BarbicanStore.session self = None →
  (∃ e, (BarbicanStore.set client_Client self key v replace).2
        = BarbicanStore.Fail e)
  ∧ ∀ sess secret ref p c k,
      key = child (child p c) k →
      pystr.sep_free c = true → segment k = true →
      client_Client None = BarbicanStore.Ok sess →
      BarbicanStore.secrets_create sess k v = BarbicanStore.Ok secret →
      BarbicanStore.secret_store secret = BarbicanStore.Ok ref →
      BarbicanStore.set client_Client self key v replace
      = ([BarbicanStore.LogDebug "Setting key %s to value %s (replace=%s)"
            [VStr key; v; VBool replace];
          BarbicanStore.NewClient; BarbicanStore.SecretsCreate k v;
          BarbicanStore.SecretStore],
         BarbicanStore.Fail BarbicanStore.AttributeError).
Proof.
  intros Hnone. split.
  - unfold BarbicanStore.set. rewrite Hnone.
    repeat case_match; simpl; by eexists.
  - intros sess secret ref p c k -> Hc Hseg Hclient Hcreate Hstore.
    destruct (walk_facts.segment_inv _ Hseg) as [_ Hk].
    unfold BarbicanStore.set.
    rewrite (walk_facts.child_endswith _ _ Hseg).
    destruct (store_facts.last_two p c k Hc Hk) as [-> ->].
    by rewrite Hnone, Hclient, Hcreate, Hstore.
Qed.

Lemma set_without_session_witness :
  BarbicanStore.set (sample_store.factory true) BarbicanStore.__init__
    "tenant1/c1/k2" (VStr "s3cret") false
  = ([BarbicanStore.LogDebug "Setting key %s to value %s (replace=%s)"
        [VStr "tenant1/c1/k2"; VStr "s3cret"; VBool false];
      BarbicanStore.NewClient; BarbicanStore.SecretsCreate "k2" (VStr "s3cret");
      BarbicanStore.SecretStore],
     BarbicanStore.Fail BarbicanStore.AttributeError).
Proof.
  exact (proj2 (set_without_session (sample_store.factory true)
                  BarbicanStore.__init__ "tenant1/c1/k2" (VStr "s3cret") false
                  eq_refl)
           (sample_store.client true) _ "ref-of-k2" "tenant1" "c1" "k2"
           eq_refl eq_refl eq_refl eq_refl eq_refl eq_refl).
Defined.

(** X21.  [list] does not filter: whatever [keyfilter] it is given, it
    returns the references of all the secrets Barbican lists (or the same
    error). *)
Theorem list_ignores_filter
    (client_Client : option BarbicanStore.Session
                     → BarbicanStore.outcome BarbicanStore.Client)
    (self : BarbicanStore.t) (keyfilter keyfilter' : string) :
  (BarbicanStore.list client_Client self keyfilter).2
  = (BarbicanStore.list client_Client self keyfilter').2
  ∧ ∀ barbican values,
      client_Client (BarbicanStore.session self) = BarbicanStore.Ok barbican →
      BarbicanStore.secrets_list barbican = BarbicanStore.Ok values →
      (BarbicanStore.list client_Client self keyfilter).2
      = BarbicanStore.Ok
          (VList ((λ v, VStr (BarbicanStore.secret_ref v)) <$> values)).
Proof.
  unfold BarbicanStore.list. split.
  - destruct (client_Client _) as [barbican|]; [|done].
    by destruct (BarbicanStore.secrets_list barbican).
  - intros barbican values -> Hlist. by rewrite Hlist.
Qed.

(** X22.  [span] and [cut] do not name the same container.  For the key
    [p/c/], [span] creates the container named by the second to last
    component, [c], while [cut] removes the container named by the whole
    key without its trailing separators, [p/c]. *)
Theorem span_cut_name_mismatch
    (client_Client : option BarbicanStore.Session
                     → BarbicanStore.outcome BarbicanStore.Client)
    (self : BarbicanStore.t) (barbican : BarbicanStore.Client) (p c : string) :
  client_Client (BarbicanStore.session self) = BarbicanStore.Ok barbican →
  segment c = true →
  BarbicanStore.ContainersCreate c
    ∈ (BarbicanStore.span client_Client self (child (child p c) "")).1
  ∧ BarbicanStore.ContainersRemove (child p c)
      ∈ (BarbicanStore.cut client_Client self (child (child p c) "")).1
  ∧ child p c ≠ c.
Proof.
  intros Hclient Hseg. destruct (walk_facts.segment_inv _ Hseg) as [Hne Hc].
  split; [|split].
  - unfold BarbicanStore.span. rewrite Hclient.
    destruct (store_facts.last_two p c "" Hc eq_refl) as [_ ->].
    destruct (BarbicanStore.containers_create barbican c) as [nc|];
      [destruct (BarbicanStore.container_store nc)|]; simpl;
      repeat (apply elem_of_cons; (by left) || right).
  - unfold BarbicanStore.cut. rewrite Hclient.
    assert (pystr.rstrip (child (child p c) "") = child p c) as ->.
    { unfold child at 1. rewrite posixpath_facts.rstrip_snoc_sep.
      apply posixpath_facts.rstrip_id. by apply walk_facts.child_endswith. }
    destruct (BarbicanStore.containers_remove barbican (child p c)); simpl;
      repeat (apply elem_of_cons; (by left) || right).
  - intros Heq. apply (f_equal pystr.len) in Heq.
    unfold child in Heq. rewrite split_facts.len_app in Heq.
    unfold pystr.len in Heq. simpl in Heq. lia.
Qed.

Lemma span_cut_name_mismatch_witness :
  BarbicanStore.ContainersCreate "c1"
    ∈ (BarbicanStore.span (sample_store.factory true) BarbicanStore.__init__
         "tenant1/c1/").1
  ∧ BarbicanStore.ContainersRemove "tenant1/c1"
      ∈ (BarbicanStore.cut (sample_store.factory true) BarbicanStore.__init__
           "tenant1/c1/").1.
Proof.
  destruct (span_cut_name_mismatch (sample_store.factory true)
              BarbicanStore.__init__ (sample_store.client true)
              "tenant1" "c1" eq_refl eq_refl) as (Hspan & Hcut & _).
  split; [exact Hspan | exact Hcut].
Defined.

(** ** Extra statements about parsing *)



(** X24.  When the library's parser rejects the request line or the
    headers, the handler marks the connection for closing and returns:
    it sends nothing of its own, reads no body and calls no plugin. *)
Theorem unparsable_request_closes
    (BaseHTTPRequestHandler_parse_request :
       LocalHTTPRequestHandler.t → LocalHTTPRequestHandler.t * bool)
    (urlparse : string → url_t) (parse_qs : string → value)
    (self h : LocalHTTPRequestHandler.t) (fuel : nat)
    (line : list Byte.byte) (rest : stream.t) :
  stream.readline 65537 (rfile self) = (line, rest) →
  line ≠ [] →
  (Z.of_nat (List.length line) ≤ 65536)%Z →
  BaseHTTPRequestHandler_parse_request
    (set_raw_requestline line (set_rfile rest self)) = (h, false) →
  handle_one_request BaseHTTPRequestHandler_parse_request urlparse parse_qs
    fuel self
  = Some (set_close_connection true h, Return tt).
Proof.
  intros Hline Hne Hlen Hbase. unfold handle_one_request. rewrite Hline.
  destruct line as [|b line']; [done|].
  cbn [List.length Nat.eqb].
  destruct (Z.gtb_spec (Z.of_nat (S (List.length line'))) 65536);
    [simpl in Hlen; lia|].
  unfold parse_request. by rewrite Hbase.
Qed.

Lemma unparsable_request_closes_witness :
  handle_one_request (λ h, (h, false)) sample.urlparse sample.parse_qs 0
    (sample.handler (sample.request_bytes []))
  = Some (set_close_connection true
            (set_raw_requestline
               (String.list_byte_of_string "GET /secrets HTTP/1.0" ++ [Byte.x0a])
               (set_rfile [] (sample.handler (sample.request_bytes [])))),
          Return tt).
Proof.
  refine (unparsable_request_closes (λ h, (h, false)) sample.urlparse
            sample.parse_qs (sample.handler (sample.request_bytes [])) _ 0
            (String.list_byte_of_string "GET /secrets HTTP/1.0" ++ [Byte.x0a]) []
            _ _ _ _); try reflexivity.
  - discriminate.
  - vm_compute. discriminate.
Defined.

(** X25.  What the plugins see of the request target: after
    [parse_request] succeeds, the [path] entry of the request mapping is
    the path component that [urlparse] finds in the target, and the
    [query] entry is [parse_qs] of its query component; the query string
    is not part of the path the router walks. *)
Theorem request_path_is_url_path
    (BaseHTTPRequestHandler_parse_request :
       LocalHTTPRequestHandler.t → LocalHTTPRequestHandler.t * bool)
    (urlparse : string → url_t) (parse_qs : string → value)
    (self h0 h : LocalHTTPRequestHandler.t) :
  BaseHTTPRequestHandler_parse_request self = (h0, true) →
  parse_request BaseHTTPRequestHandler_parse_request urlparse parse_qs self
  = (h, true) →
  build_request h !! "path" = Some (VStr (url_path (urlparse (path h0))))
  ∧ build_request h !! "query" = Some (parse_qs (url_query (urlparse (path h0))))
  ∧ build_request h !! "url" = Some (url_value (urlparse (path h0)))
  ∧ build_request h !! "valid_auth" = None
  ∧ build_request h !! "trail" = None.
Proof.
  intros Hbase. unfold parse_request. rewrite Hbase. cbn [negb].
  intros [= <-]. done.
Qed.

Lemma request_path_is_url_path_witness :
  build_request
    (parse_request (sample.base_parse [])
       (λ target, {| url_path := "/secrets"; url_query := "a=1";
                     url_value := VStr target |})
       (λ q, VDict [("a", VList [VStr "1"])])
       (sample.handler [])).1 !! "path"
  = Some (VStr "/secrets").
Proof.
  exact (proj1 (request_path_is_url_path (sample.base_parse [])
                  (λ target, {| url_path := "/secrets"; url_query := "a=1";
                                url_value := VStr target |})
                  (λ q, VDict [("a", VList [VStr "1"])])
                  (sample.handler []) _ _ eq_refl eq_refl)).
Defined.
